(** * Research-assistant Lambda handler: a shallow embedding of
      [src/lambda_function.py] and the properties of its single entry point
      [lambda_handler].

    The file follows the source top-down: Python values and strings, the
    library functions the handler calls ([str.encode], [json.dumps],
    [uuid.__str__], [datetime.isoformat]), the outside world (everything the
    handler calls but does not define), the module-level globals, and the
    handler itself, written block by block with the source line ranges. *)

From Stdlib Require Import List NArith ZArith Bool String Ascii Lia.
From Stdlib Require Import Floats.SpecFloat.
Import ListNotations.

Set Warnings "-register-all".
Open Scope N_scope.

(* ================================================================== *)
(** ** Python strings and bytes *)

(** A Python [str] is a sequence of code points; [bytes] is a sequence of
    octets. *)
Definition pystr := list N.
Definition pybytes := list N.

(** ASCII literals of the source. *)
Definition py (s : string) : pystr :=
  map N_of_ascii (list_ascii_of_string s).

Fixpoint str_eqb (a b : pystr) : bool :=
  match a, b with
  | [], [] => true
  | x :: a', y :: b' => (x =? y) && str_eqb a' b'
  | _, _ => false
  end.

Fixpoint starts_with (s p : pystr) {struct p} : bool :=
  match p, s with
  | [], _ => true
  | y :: p', x :: s' => (x =? y) && starts_with s' p'
  | _ :: _, [] => false
  end.

(** [t in s] on strings: [t] occurs as a contiguous substring of [s]. *)
Fixpoint contains (s t : pystr) : bool :=
  starts_with s t ||
  match s with
  | [] => false
  | _ :: s' => contains s' t
  end.

(** [str.encode('utf-8')] on one code point.  Surrogates (U+D800..U+DFFF)
    cannot be encoded: Python raises [UnicodeEncodeError]. *)
Definition utf8_encode_char (c : N) : option pybytes :=
  if c <? 0x80 then Some [c]
  else if c <? 0x800 then
    Some [N.lor 0xC0 (N.shiftr c 6); N.lor 0x80 (N.land c 0x3F)]
  else if c <? 0x10000 then
    if (0xD800 <=? c) && (c <=? 0xDFFF) then None
    else Some [N.lor 0xE0 (N.shiftr c 12);
               N.lor 0x80 (N.land (N.shiftr c 6) 0x3F);
               N.lor 0x80 (N.land c 0x3F)]
  else if c <? 0x110000 then
    Some [N.lor 0xF0 (N.shiftr c 18);
          N.lor 0x80 (N.land (N.shiftr c 12) 0x3F);
          N.lor 0x80 (N.land (N.shiftr c 6) 0x3F);
          N.lor 0x80 (N.land c 0x3F)]
  else None.

Fixpoint utf8_encode (s : pystr) : option pybytes :=
  match s with
  | [] => Some []
  | c :: s' =>
      match utf8_encode_char c, utf8_encode s' with
      | Some b, Some bs => Some (b ++ bs)
      | _, _ => None
      end
  end.

(** A string is encodable when every element is a code point that is not a
    surrogate. *)
Definition scalar_value (c : N) : bool :=
  (c <? 0x110000) && negb ((0xD800 <=? c) && (c <=? 0xDFFF)).

(** [n] written with exactly [width] digits in [base], most significant
    first (the digits above [width] are dropped; the callers below only pass
    values that fit). *)
Definition digit_char (d : N) : N :=
  if d <? 10 then 48 + d else 87 + d.

Fixpoint fixed_digits (base : N) (width : nat) (n : N) : pystr :=
  match width with
  | O => []
  | S w => fixed_digits base w (n / base) ++ [digit_char (n mod base)]
  end.

Definition hex4 (n : N) : pystr := fixed_digits 16 4 n.

(** Character classes used to describe the output of the encoders. *)
Definition printable (c : N) : Prop := 32 <= c <= 126.

Definition printableb (c : N) : bool := (32 <=? c) && (c <=? 126).

Definition hex_or_hyphen (c : N) : Prop :=
  48 <= c <= 57 \/ 97 <= c <= 102 \/ c = 45.

(* ================================================================== *)
(** ** Python values

    The values the handler sees are those a JSON document decodes to (the
    Lambda runtime decodes the event, [json.loads] decodes the body). *)

Inductive pyval : Type :=
| VNone
| VBool (b : bool)
| VInt (z : Z)
| VFloat (f : spec_float)
| VStr (s : pystr)
| VList (l : list pyval)
| VDict (d : list (pystr * pyval)).

(** Truth value of an object, as [not x] and [if x] test it. *)
Definition truthy (v : pyval) : bool :=
  match v with
  | VNone => false
  | VBool b => b
  | VInt z => negb (z =? 0)%Z
  | VFloat (S754_zero _) => false
  | VFloat _ => true
  | VStr s => match s with [] => false | _ => true end
  | VList l => match l with [] => false | _ => true end
  | VDict d => match d with [] => false | _ => true end
  end.

(** Lookup in a dict kept as an insertion-ordered association list. *)
Fixpoint assoc {V : Type} (k : pystr) (d : list (pystr * V)) : option V :=
  match d with
  | [] => None
  | (k', v) :: d' => if str_eqb k' k then Some v else assoc k d'
  end.

(** A module global read from the environment is a [str] or [None]. *)
Definition py_not (x : option pystr) : bool :=
  match x with
  | None => true
  | Some [] => true
  | Some (_ :: _) => false
  end.

(* ================================================================== *)
(** ** Library functions the handler calls on its own data *)

(** [json.dumps] with its defaults ([ensure_ascii=True], separators
    [", "] and [": "]) on the only shape the handler serialises: a dict
    whose keys are [str] and whose values are [str] or [None]. *)
Definition json_escape_char (c : N) : pystr :=
  if c =? 34 then [92; 34]
  else if c =? 92 then py "\\"
  else if c =? 8 then py "\b"
  else if c =? 12 then py "\f"
  else if c =? 10 then py "\n"
  else if c =? 13 then py "\r"
  else if c =? 9 then py "\t"
  else if (32 <=? c) && (c <=? 126) then [c]
  else if c <? 0x10000 then py "\u" ++ hex4 c
  else
    let n := c - 0x10000 in
    py "\u" ++ hex4 (N.lor 0xD800 (N.land (N.shiftr n 10) 0x3FF)) ++
    py "\u" ++ hex4 (N.lor 0xDC00 (N.land n 0x3FF)).

Definition json_string (s : pystr) : pystr :=
  [34] ++ flat_map json_escape_char s ++ [34].

Definition json_value (v : option pystr) : pystr :=
  match v with
  | None => py "null"
  | Some s => json_string s
  end.

Fixpoint json_members (d : list (pystr * option pystr)) : pystr :=
  match d with
  | [] => []
  | [(k, v)] => json_string k ++ py ": " ++ json_value v
  | (k, v) :: d' =>
      json_string k ++ py ": " ++ json_value v ++ py ", " ++ json_members d'
  end.

Definition json_dumps (d : list (pystr * option pystr)) : pystr :=
  py "{" ++ json_members d ++ py "}".

(** [str(uuid.UUID)]: the 128-bit integer in 32 lowercase hex digits,
    grouped 8-4-4-4-12. *)
Definition uuid_str (u : N) : pystr :=
  let h := fixed_digits 16 32 u in
  firstn 8 h ++ py "-" ++ firstn 4 (skipn 8 h) ++ py "-" ++
  firstn 4 (skipn 12 h) ++ py "-" ++ firstn 4 (skipn 16 h) ++ py "-" ++
  skipn 20 h.

(** A naive [datetime] and its [isoformat()]:
    [YYYY-MM-DDTHH:MM:SS], followed by [.ffffff] when the microsecond
    field is not zero.  [utcnow()] returns a naive value, so no offset is
    printed. *)
Record datetime : Type := {
  year : N; month : N; day : N;
  hour : N; minute : N; second : N; microsecond : N
}.

Definition isoformat (t : datetime) : pystr :=
  fixed_digits 10 4 (year t) ++ py "-" ++ fixed_digits 10 2 (month t) ++
  py "-" ++ fixed_digits 10 2 (day t) ++ py "T" ++
  fixed_digits 10 2 (hour t) ++ py ":" ++ fixed_digits 10 2 (minute t) ++
  py ":" ++ fixed_digits 10 2 (second t) ++
  (if microsecond t =? 0 then [] else py "." ++ fixed_digits 10 6 (microsecond t)).

(* ================================================================== *)
(** ** Exceptions *)

(** The classes the handler can tell apart: its first [except] clause
    names [json.JSONDecodeError], its second one [Exception].  Every class
    below derives from [Exception]. *)
Inductive exc_class : Type :=
| JSONDecodeError
| TypeError
| AttributeError
| UnicodeEncodeError
| OtherException (name : pystr).

(** A raised exception: its class and the text [traceback.format_exc()]
    prints for it after the header line (stack frames, then class and
    message). *)
Record raised : Type := {
  exc_type : exc_class;
  exc_detail : pystr
}.

Definition is_JSONDecodeError (e : raised) : bool :=
  match exc_type e with
  | JSONDecodeError => true
  | _ => false
  end.

Definition traceback_header : pystr :=
  py "Traceback (most recent call last):" ++ [10].

Definition format_exc (e : raised) : pystr :=
  traceback_header ++ exc_detail e.

Inductive result (A : Type) : Type :=
| Ok (a : A)
| Raise (e : raised).
Arguments Ok {A} a.
Arguments Raise {A} e.

(* ================================================================== *)
(** ** The outside world

    Everything [lambda_handler] calls but does not define.  Each call site
    of the handler runs at most once per invocation (there is no loop), so
    the world gives one outcome per call site: [None] when the call returns,
    [Some e] when it raises [e]. *)

(** The places where the interpreter itself raises [UnicodeEncodeError]:
    the [print] of line 47, the [encode] of line 84, and the [print]s of
    lines 113-115. *)
Inductive codec_site : Type :=
| StartLog
| ReportEncoding
| FailureLog.

Record World : Type := {
  json_decode : pystr -> result pyval;    (* json.loads on a str *)
  uuid4 : N;                              (* uuid.uuid4().int *)
  codec_traceback : codec_site -> pystr;  (* the traceback text of the
                                             UnicodeEncodeError raised
                                             at that place *)
  llm_init : option raised;               (* ChatGoogleGenerativeAI(...) *)
  search_init : option raised;            (* SerpAPIWrapper() *)
  agent_init : option raised;             (* initialize_agent(...) *)
  agent_answer : result pystr;            (* agent.run(prompt) *)
  s3_put : option raised;                 (* s3_client.put_object(...) *)
  put_completed : option raised;          (* table.put_item, line 90 *)
  put_failed : option raised;             (* table.put_item, line 118 *)
  utcnow_completed : datetime;            (* utcnow(), line 96 *)
  utcnow_failed : datetime                (* utcnow(), line 124 *)
}.

(** The [UnicodeEncodeError] the interpreter raises at [site]; its
    traceback text (frames, position, character) is the interpreter's. *)
Definition codec_error (w : World) (site : codec_site) : raised :=
  {| exc_type := UnicodeEncodeError;
     exc_detail := codec_traceback w site |}.

(** The log stream is UTF-8 with strict error handling: text can be
    written to it when it holds scalar values only. *)
Definition loggable (text : pystr) : bool := forallb scalar_value text.

(** What an f-string puts into a log line for a value: a [str] goes in as
    it is; for every other value [str()] gives digits, letters and the
    [repr()] of the strings inside, which escapes surrogates, so the text can
    always be written. *)
Definition loggable_value (v : pyval) : bool :=
  match v with
  | VStr s => loggable s
  | _ => true
  end.

(** The calls that leave the process, with their arguments. *)
Inductive call : Type :=
| ChatGoogleGenerativeAI
| SerpAPIWrapper
| initialize_agent
| agent_run (research_topic : pyval)
| put_object (Bucket : option pystr) (Key : pystr) (Body : pybytes)
             (ContentType : pystr)
| put_item (TableName : option pystr) (Item : list (pystr * pyval)).

(** One trace entry per call, in program order: the call and whether it
    returned ([true]) or raised ([false]). *)
Definition trace := list (call * bool).

(** Computations of the handler: they extend the trace and either produce
    a value or raise. *)
Definition M (A : Type) : Type := trace -> result A * trace.

Definition ret {A} (a : A) : M A := fun tr => (Ok a, tr).

Definition bind {A B} (m : M A) (k : A -> M B) : M B :=
  fun tr =>
    match m tr with
    | (Ok a, tr') => k a tr'
    | (Raise e, tr') => (Raise e, tr')
    end.

Definition lift {A} (r : result A) : M A := fun tr => (r, tr).

(** [try: m  except <class test>: h]. *)
Definition try_except {A} (m : M A) (catches : raised -> bool)
           (h : raised -> M A) : M A :=
  fun tr =>
    match m tr with
    | (Ok a, tr') => (Ok a, tr')
    | (Raise e, tr') => if catches e then h e tr' else (Raise e, tr')
    end.

(** An outside call without a result. *)
Definition extern (c : call) (o : option raised) : M unit :=
  fun tr =>
    match o with
    | None => (Ok tt, tr ++ [(c, true)])
    | Some e => (Raise e, tr ++ [(c, false)])
    end.

(** An outside call with a result. *)
Definition extern_val {A} (c : call) (r : result A) : M A :=
  fun tr =>
    match r with
    | Ok a => (Ok a, tr ++ [(c, true)])
    | Raise e => (Raise e, tr ++ [(c, false)])
    end.

(** [print(line)]: nothing is kept of the line; the call raises when the
    line cannot be written. *)
Definition print_log (w : World) (site : codec_site) (writable : bool)
  : M unit :=
  if writable then ret tt else lift (Raise (codec_error w site)).

Declare Scope py_scope.
Delimit Scope py_scope with pym.
Notation "x <- m ;; k" := (bind m (fun x => k))
  (at level 61, m at next level, right associativity) : py_scope.
Notation "m ;;; k" := (bind m (fun _ => k))
  (at level 61, right associativity) : py_scope.
Open Scope py_scope.

(* ================================================================== *)
(** ** Module level (lines 11-17) *)

Definition environ := list (pystr * pystr).

(** [os.environ.get(name)]. *)
Definition os_environ_get (env : environ) (name : pystr) : option pystr :=
  assoc name env.

(** The four module globals. *)
Record Globals : Type := {
  S3_BUCKET_NAME : option pystr;
  DYNAMODB_TABLE_NAME : option pystr;
  GOOGLE_API_KEY : option pystr;
  SERPAPI_API_KEY : option pystr
}.

(** Running the module body: lines 14-17 read the environment, once, when
    the module is imported. *)
Definition import_module (env : environ) : Globals :=
  {| S3_BUCKET_NAME := os_environ_get env (py "S3_BUCKET_NAME");
     DYNAMODB_TABLE_NAME := os_environ_get env (py "DYNAMODB_TABLE_NAME");
     GOOGLE_API_KEY := os_environ_get env (py "GOOGLE_API_KEY");
     SERPAPI_API_KEY := os_environ_get env (py "SERPAPI_API_KEY") |}.

(* ================================================================== *)
(** ** [lambda_handler] (lines 18-130) *)

Record response : Type := {
  statusCode : Z;
  body : pystr
}.

(** [obj.get(key, default)]: among the values above only a dict has a
    [get] method; on any other object the attribute lookup raises. *)
Definition no_attribute_get : raised :=
  {| exc_type := AttributeError;
     exc_detail := py "AttributeError: object has no attribute 'get'" |}.

Definition py_get (obj : pyval) (key : pystr) (default : pyval)
  : result pyval :=
  match obj with
  | VDict d =>
      match assoc key d with
      | Some v => Ok v
      | None => Ok default
      end
  | _ => Raise no_attribute_get
  end.

(** [json.loads(s)]: a [str] is decoded; any other value above (no
    [bytes] can come out of a JSON event) is rejected with [TypeError]
    before decoding starts. *)
Definition not_a_json_document : raised :=
  {| exc_type := TypeError;
     exc_detail :=
       py "TypeError: the JSON object must be str, bytes or bytearray" |}.

Definition json_loads (w : World) (s : pyval) : result pyval :=
  match s with
  | VStr t => json_decode w t
  | _ => Raise not_a_json_document
  end.

(** [final_report.encode('utf-8')]. *)
Definition encode_utf8 (w : World) (s : pystr) : result pybytes :=
  match utf8_encode s with
  | Some b => Ok b
  | None => Raise (codec_error w ReportEncoding)
  end.

(** Lines 32-44.  [inl r]: the function returns [r] from inside the [try];
    [inr topic]: control reaches line 46 with [research_topic = topic]. *)
Definition parse_request (w : World) (event : pyval)
  : M (response + pyval) :=
  try_except
    (body <- lift (py_get event (py "body") (VStr (py "{}"))) ;;
     body <- lift (json_loads w body) ;;
     research_topic <- lift (py_get body (py "topic") VNone) ;;
     if negb (truthy research_topic) then
       ret (inl {| statusCode := 400;
                   body := json_dumps
                     [(py "error",
                       Some (py "Missing " ++ [34] ++ py "topic" ++ [34] ++
                             py " in request body."))] |})
     else ret (inr research_topic))
    is_JSONDecodeError
    (fun _ =>
       ret (inl {| statusCode := 400;
                   body := json_dumps
                     [(py "error", Some (py "Invalid JSON in request body."))] |})).

Definition completed_item (task_id : pystr) (research_topic : pyval)
           (s3_file_key : pystr) (now : datetime) : list (pystr * pyval) :=
  [(py "task_id", VStr task_id);
   (py "research_topic", research_topic);
   (py "s3_report_key", VStr s3_file_key);
   (py "status", VStr (py "COMPLETED"));
   (py "completed_at", VStr (isoformat now))].

Definition failed_item (task_id : pystr) (research_topic : pyval)
           (error_trace : pystr) (now : datetime) : list (pystr * pyval) :=
  [(py "task_id", VStr task_id);
   (py "research_topic", research_topic);
   (py "status", VStr (py "FAILED"));
   (py "error_message", VStr error_trace);
   (py "completed_at", VStr (isoformat now))].

(** Lines 50-109, the body of the second [try].  [Tool(...)] and
    [dynamodb.Table(...)] only build local objects.  The argument of
    [agent.run] is the prompt of lines 68-77, the fixed template with
    [research_topic] formatted into it; the trace keeps the topic the prompt
    is formatted from.  The [print] of line 79 writes a literal.  Those of
    lines 87 and 99 write the bucket and the table name, and are only reached
    once the store has accepted that name, which the naming rules of both
    stores restrict to ASCII: they can always be written. *)
Definition research_and_store (g : Globals) (w : World)
           (research_topic : pyval) (task_id : pystr) : M response :=
  extern ChatGoogleGenerativeAI (llm_init w) ;;;
  extern SerpAPIWrapper (search_init w) ;;;
  extern initialize_agent (agent_init w) ;;;
  final_report <- extern_val (agent_run research_topic) (agent_answer w) ;;
  let s3_file_key := py "reports/" ++ task_id ++ py ".txt" in
  report_bytes <- lift (encode_utf8 w final_report) ;;
  extern (put_object (S3_BUCKET_NAME g) s3_file_key report_bytes
                     (py "text/plain"))
         (s3_put w) ;;;
  extern (put_item (DYNAMODB_TABLE_NAME g)
                   (completed_item task_id research_topic s3_file_key
                                   (utcnow_completed w)))
         (put_completed w) ;;;
  ret {| statusCode := 200;
         body := json_dumps
           [(py "message", Some (py "Research task completed successfully!"));
            (py "task_id", Some task_id);
            (py "s3_bucket", S3_BUCKET_NAME g);
            (py "s3_key", Some s3_file_key)] |}.

(** Lines 111-130, the [except Exception as e] clause.  Line 113 prints
    the message of [e], line 114 a literal, line 115 the traceback; the
    message is the last line of the traceback, so the three lines can be
    written exactly when the traceback can.  An exception raised here is not
    caught. *)
Definition record_failure (g : Globals) (w : World)
           (research_topic : pyval) (task_id : pystr) (e : raised)
  : M response :=
  let error_trace := format_exc e in
  print_log w FailureLog (loggable error_trace) ;;;
  extern (put_item (DYNAMODB_TABLE_NAME g)
                   (failed_item task_id research_topic error_trace
                                (utcnow_failed w)))
         (put_failed w) ;;;
  ret {| statusCode := 500;
         body := json_dumps
           [(py "error",
             Some (py "An internal server error occurred. Check CloudWatch logs for details."))] |}.

(** The handler.  Line 19 prints [json.dumps(event)], which is ASCII and
    exists for every event the runtime has decoded from JSON; lines 22, 25
    and 28 print literals: these lines can always be written.  Line 47 prints
    the task id and the topic, between the two [try] blocks: an exception
    raised there is not caught. *)
Definition lambda_handler (g : Globals) (w : World) (event : pyval)
  : M response :=
  if py_not (GOOGLE_API_KEY g) then
    ret {| statusCode := 500;
           body := json_dumps
             [(py "error",
               Some (py "Server configuration error: Missing Google API Key."))] |}
  else if py_not (SERPAPI_API_KEY g) then
    ret {| statusCode := 500;
           body := json_dumps
             [(py "error",
               Some (py "Server configuration error: Missing SerpApi API Key."))] |}
  else if py_not (S3_BUCKET_NAME g) || py_not (DYNAMODB_TABLE_NAME g) then
    ret {| statusCode := 500;
           body := json_dumps
             [(py "error",
               Some (py "Server configuration error: Missing AWS resource names."))] |}
  else
    parsed <- parse_request w event ;;
    match parsed with
    | inl early => ret early
    | inr research_topic =>
        let task_id := uuid_str (uuid4 w) in
        print_log w StartLog (loggable_value research_topic) ;;;
        try_except (research_and_store g w research_topic task_id)
                   (fun _ => true)
                   (record_failure g w research_topic task_id)
    end.

(** One invocation, started with an empty trace. *)
Definition run (g : Globals) (w : World) (event : pyval)
  : result response * trace :=
  lambda_handler g w event [].

(* ================================================================== *)
(** ** The process around the handler

    A worker process imports the module once ([cold_start]) and then serves
    invocations.  [os.environ] is process state that other code of the
    process can change ([setenv]); the module globals are not touched by
    it.  The SDK objects the handler calls may read [os.environ] whenever
    they are called: the constructors of lines 50 and 52 are given no key and
    read their API key from it at every invocation.  So what the outside
    calls do is a function of the environment of that moment. *)
Record Process : Type := {
  os_environ : environ;
  module_globals : Globals
}.

Definition cold_start (env : environ) : Process :=
  {| os_environ := env; module_globals := import_module env |}.

Definition setenv (env : environ) (p : Process) : Process :=
  {| os_environ := env; module_globals := module_globals p |}.

Record Calls : Type := {
  llm_call : option raised;          (* ChatGoogleGenerativeAI(...) *)
  search_call : option raised;       (* SerpAPIWrapper() *)
  agent_call : option raised;        (* initialize_agent(...) *)
  answer_call : result pystr;        (* agent.run(prompt) *)
  s3_call : option raised;           (* s3_client.put_object(...) *)
  completed_call : option raised;    (* table.put_item, line 90 *)
  failed_call : option raised        (* table.put_item, line 118 *)
}.

Definition Sdk : Type := environ -> Calls.

(** The world of an invocation made while the environment is [env]: the
    outside calls do what the SDK does in [env]; decoding, the random
    identifier, the interpreter's tracebacks and the clock are those of
    [w]. *)
Definition in_environment (sdk : Sdk) (env : environ) (w : World) : World :=
  {| json_decode := json_decode w;
     uuid4 := uuid4 w;
     codec_traceback := codec_traceback w;
     llm_init := llm_call (sdk env);
     search_init := search_call (sdk env);
     agent_init := agent_call (sdk env);
     agent_answer := answer_call (sdk env);
     s3_put := s3_call (sdk env);
     put_completed := completed_call (sdk env);
     put_failed := failed_call (sdk env);
     utcnow_completed := utcnow_completed w;
     utcnow_failed := utcnow_failed w |}.

Definition invoke (p : Process) (sdk : Sdk) (w : World) (event : pyval)
  : result response * trace :=
  run (module_globals p) (in_environment sdk (os_environ p) w) event.

(* ================================================================== *)
(** ** What is observed of an invocation *)

Definition is_put_object (c : call) : bool :=
  match c with
  | put_object _ _ _ _ => true
  | _ => false
  end.

Definition is_put_item (c : call) : bool :=
  match c with
  | put_item _ _ => true
  | _ => false
  end.

(** The calls of one kind in a trace, and those among them that returned. *)
Definition attempts (kind : call -> bool) (tr : trace) : list call :=
  map fst (filter (fun x => kind (fst x)) tr).

Definition writes (kind : call -> bool) (tr : trace) : list call :=
  map fst (filter (fun x => kind (fst x) && snd x) tr).

(** All four configuration values are present and not empty. *)
Definition config_present (g : Globals) : bool :=
  negb (py_not (GOOGLE_API_KEY g)) && negb (py_not (SERPAPI_API_KEY g)) &&
  negb (py_not (S3_BUCKET_NAME g)) && negb (py_not (DYNAMODB_TABLE_NAME g)).

(** The status a registry item carries. *)
Definition item_status (item : list (pystr * pyval)) : option pyval :=
  assoc (py "status") item.

(* ================================================================== *)
(** ** Sample data for the examples *)

Definition quoted (s : pystr) : pystr := [34] ++ s ++ [34].

(** The request body [{"topic": "coral bleaching"}]. *)
Definition coral_body : pystr :=
  py "{" ++ quoted (py "topic") ++ py ": " ++ quoted (py "coral bleaching") ++
  py "}".

Definition decode_error : raised :=
  {| exc_type := JSONDecodeError;
     exc_detail :=
       py "json.decoder.JSONDecodeError: Expecting value: line 1 column 1 (char 0)" |}.

(** [json.loads] on the documents the examples use: the empty object, the
    coral request, and text that is not JSON. *)
Definition decode_table (s : pystr) : result pyval :=
  if str_eqb s (py "{}") then Ok (VDict [])
  else if str_eqb s coral_body then
    Ok (VDict [(py "topic", VStr (py "coral bleaching"))])
  else Raise decode_error.

Definition provider_error : raised :=
  {| exc_type := OtherException (py "RuntimeError");
     exc_detail := py "RuntimeError: provider unavailable" |}.

Definition throttled : raised :=
  {| exc_type := OtherException (py "ClientError");
     exc_detail := py "botocore.exceptions.ClientError: ProvisionedThroughputExceededException" |}.

Definition noon : datetime :=
  {| year := 2024; month := 5; day := 17;
     hour := 12; minute := 0; second := 9; microsecond := 250 |}.

(** A world in which construction succeeds and the remaining outcomes are
    chosen by the caller. *)
(** The last line of the traceback of a [UnicodeEncodeError]. *)
Definition surrogate_traceback : pystr :=
  py "UnicodeEncodeError: 'utf-8' codec can't encode character '\ud800' in position 1: surrogates not allowed".

Definition world_with (answer : result pystr) (s3 completed failed : option raised)
  : World :=
  {| json_decode := decode_table;
     uuid4 := 0x123e4567e89b42d3a456426614174000;
     codec_traceback := fun _ => surrogate_traceback;
     llm_init := None;
     search_init := None;
     agent_init := None;
     agent_answer := answer;
     s3_put := s3;
     put_completed := completed;
     put_failed := failed;
     utcnow_completed := noon;
     utcnow_failed := noon |}.

Definition calm_world : World :=
  world_with (Ok (py "Coral bleaching report...")) None None None.

Definition full_config : Globals :=
  {| S3_BUCKET_NAME := Some (py "reports-bucket");
     DYNAMODB_TABLE_NAME := Some (py "research-tasks");
     GOOGLE_API_KEY := Some (py "g-key");
     SERPAPI_API_KEY := Some (py "s-key") |}.

Definition coral_event : pyval :=
  VDict [(py "body", VStr coral_body)].

(* ================================================================== *)
(** ** Vocabulary of the properties *)

(** The four configuration values and the three categories the handler's
    messages name. *)
Inductive config_key : Type :=
| KeyGoogle | KeySerpApi | KeyBucket | KeyTable.

Definition config_value (g : Globals) (k : config_key) : option pystr :=
  match k with
  | KeyGoogle => GOOGLE_API_KEY g
  | KeySerpApi => SERPAPI_API_KEY g
  | KeyBucket => S3_BUCKET_NAME g
  | KeyTable => DYNAMODB_TABLE_NAME g
  end.

Inductive category : Type :=
| GoogleApiKey | SerpApiKey | AwsResourceNames.

Definition category_of (k : config_key) : category :=
  match k with
  | KeyGoogle => GoogleApiKey
  | KeySerpApi => SerpApiKey
  | KeyBucket | KeyTable => AwsResourceNames
  end.

Definition category_message (c : category) : pystr :=
  match c with
  | GoogleApiKey => py "Server configuration error: Missing Google API Key."
  | SerpApiKey => py "Server configuration error: Missing SerpApi API Key."
  | AwsResourceNames =>
      py "Server configuration error: Missing AWS resource names."
  end.

Definition error_response (code : Z) (message : pystr) : response :=
  {| statusCode := code; body := json_dumps [(py "error", Some message)] |}.

Definition missing_topic_response : response :=
  error_response 400
    (py "Missing " ++ quoted (py "topic") ++ py " in request body.").

Definition invalid_json_response : response :=
  error_response 400 (py "Invalid JSON in request body.").

Definition internal_error_response : response :=
  error_response 500
    (py "An internal server error occurred. Check CloudWatch logs for details.").

Definition success_response (g : Globals) (task_id : pystr) : response :=
  {| statusCode := 200;
     body := json_dumps
       [(py "message", Some (py "Research task completed successfully!"));
        (py "task_id", Some task_id);
        (py "s3_bucket", S3_BUCKET_NAME g);
        (py "s3_key", Some (py "reports/" ++ task_id ++ py ".txt"))] |}.

(** The request carries a topic: the event is a dict whose "body" is a
    string that decodes to a dict whose "topic" is a true value. *)
Definition valid_request (w : World) (event : pyval) (topic : pyval) : Prop :=
  exists ev s b,
    event = VDict ev /\
    assoc (py "body") ev = Some (VStr s) /\
    json_decode w s = Ok (VDict b) /\
    assoc (py "topic") b = Some topic /\
    truthy topic = true.

(** The agent is built and its run returns [report]. *)
Definition agent_completes (w : World) (report : pystr) : Prop :=
  llm_init w = None /\ search_init w = None /\ agent_init w = None /\
  agent_answer w = Ok report.

(** The second [try] block raises [e]. *)
Definition task_raises (g : Globals) (w : World) (topic : pyval) (e : raised)
  : Prop :=
  fst (research_and_store g w topic (uuid_str (uuid4 w)) []) = Raise e.

(** The success outcome: one object written, one COMPLETED record written,
    response 200. *)
Definition report_delivered (g : Globals) (w : World) (event topic : pyval)
           (report : pystr) : Prop :=
  let task_id := uuid_str (uuid4 w) in
  let key := py "reports/" ++ task_id ++ py ".txt" in
  (exists bytes,
      utf8_encode report = Some bytes /\
      writes is_put_object (snd (run g w event)) =
      [put_object (S3_BUCKET_NAME g) key bytes (py "text/plain")]) /\
  writes is_put_item (snd (run g w event)) =
  [put_item (DYNAMODB_TABLE_NAME g)
     [(py "task_id", VStr task_id);
      (py "research_topic", topic);
      (py "s3_report_key", VStr key);
      (py "status", VStr (py "COMPLETED"));
      (py "completed_at", VStr (isoformat (utcnow_completed w)))]] /\
  fst (run g w event) = Ok (success_response g task_id).

(** The failure outcome: one FAILED record written, response 500. *)
Definition failure_recorded (g : Globals) (w : World) (event topic : pyval)
           (e : raised) : Prop :=
  writes is_put_item (snd (run g w event)) =
  [put_item (DYNAMODB_TABLE_NAME g)
     [(py "task_id", VStr (uuid_str (uuid4 w)));
      (py "research_topic", topic);
      (py "status", VStr (py "FAILED"));
      (py "error_message", VStr (format_exc e));
      (py "completed_at", VStr (isoformat (utcnow_failed w)))]] /\
  fst (run g w event) = Ok internal_error_response.

(** Rejection of a request whose body is the string [s]: 400 "Invalid
    JSON" when [s] does not decode, 400 "Missing topic" when it decodes to a
    dict without a true "topic"; no outside call either way. *)
Definition bad_request_rejected (g : Globals) (w : World)
           (ev : list (pystr * pyval)) (s : pystr) : Prop :=
  (forall e,
      json_decode w s = Raise e -> is_JSONDecodeError e = true ->
      run g w (VDict ev) = (Ok invalid_json_response, [])) /\
  (forall b,
      json_decode w s = Ok (VDict b) ->
      (assoc (py "topic") b = None \/
       exists t, assoc (py "topic") b = Some t /\ truthy t = false) ->
      run g w (VDict ev) = (Ok missing_topic_response, [])).

(** An event without "body" is handled as the same event with the body
    text [{}], and is rejected for its missing topic. *)
Definition missing_body_defaulted (g : Globals) (w : World)
           (ev : list (pystr * pyval)) : Prop :=
  run g w (VDict ev) = run g w (VDict ((py "body", VStr (py "{}")) :: ev)) /\
  run g w (VDict ev) = (Ok missing_topic_response, []).

(** The steps of an invocation that leave the process. *)
Inductive step : Type :=
| ModelConstruction
| SearchConstruction
| AgentConstruction
| AgentInvocation
| ReportStoreWrite
| RegistryCompleted
| RegistryFailed.

Definition step_of (c : call) : step :=
  match c with
  | ChatGoogleGenerativeAI => ModelConstruction
  | SerpAPIWrapper => SearchConstruction
  | initialize_agent => AgentConstruction
  | agent_run _ => AgentInvocation
  | put_object _ _ _ _ => ReportStoreWrite
  | put_item _ item =>
      match item_status item with
      | Some (VStr s) =>
          if str_eqb s (py "COMPLETED") then RegistryCompleted
          else RegistryFailed
      | _ => RegistryFailed
      end
  end.

Definition steps (tr : trace) : list (step * bool) :=
  map (fun x => (step_of (fst x), snd x)) tr.

Definition main_path : list step :=
  [ModelConstruction; SearchConstruction; AgentConstruction;
   AgentInvocation; ReportStoreWrite; RegistryCompleted].

Definition returned (l : list step) : list (step * bool) :=
  map (fun s => (s, true)) l.

(** The main path cut short by an exception: the first [k] steps returned
    and step [k] raised, or the agent returned and its report could not be
    encoded (no call raised). *)
Inductive interrupted : list (step * bool) -> Prop :=
| Interrupted_by_call k s :
    nth_error main_path k = Some s ->
    interrupted (returned (firstn k main_path) ++ [(s, false)])
| Interrupted_by_encoding :
    interrupted (returned (firstn 4 main_path)).

(** The paths of the handler, as outcome and steps: the two early
    responses, the main path, and the failure edge, which ends in the 500
    response when the FAILED write returns and in the exception of that write
    when it raises. *)
Inductive handler_path (g : Globals) : result response * trace -> Prop :=
| Path_config_error r :
    config_present g = false -> statusCode r = 500%Z ->
    handler_path g (Ok r, [])
| Path_request_rejected r :
    config_present g = true -> statusCode r = 400%Z ->
    handler_path g (Ok r, [])
| Path_completed r tr :
    config_present g = true ->
    steps tr = returned main_path -> statusCode r = 200%Z ->
    handler_path g (Ok r, tr)
| Path_failed r tr pre :
    config_present g = true -> interrupted pre ->
    steps tr = pre ++ [(RegistryFailed, true)] -> statusCode r = 500%Z ->
    handler_path g (Ok r, tr)
| Path_failure_unrecorded e tr pre :
    config_present g = true -> interrupted pre ->
    steps tr = pre ++ [(RegistryFailed, false)] ->
    handler_path g (Raise e, tr).

(** The state machine as the specification words it: every path ends in a
    response. *)
Definition responds (out : result response * trace) : Prop :=
  exists r, fst out = Ok r.

(** The trace of a second [try] block that runs to its end. *)
Definition completed_trace (g : Globals) (w : World) (topic : pyval)
           (bytes : pybytes) : trace :=
  let task_id := uuid_str (uuid4 w) in
  let key := py "reports/" ++ task_id ++ py ".txt" in
  [(ChatGoogleGenerativeAI, true);
   (SerpAPIWrapper, true);
   (initialize_agent, true);
   (agent_run topic, true);
   (put_object (S3_BUCKET_NAME g) key bytes (py "text/plain"), true);
   (put_item (DYNAMODB_TABLE_NAME g)
             (completed_item task_id topic key (utcnow_completed w)), true)].

Definition access_denied : raised :=
  {| exc_type := OtherException (py "ClientError");
     exc_detail := py "botocore.exceptions.ClientError: AccessDenied" |}.

(** C5 as the specification words it: no second registry write is
    attempted within an invocation. *)
Definition single_registry_attempt (g : Globals) (w : World) (event : pyval)
  : Prop :=
  (List.length (attempts is_put_item (snd (run g w event))) <= 1)%nat.

(** C6 as the specification words it: the body of the failure response
    holds the task identifier. *)
Definition failure_response_names_task (w : World) (r : response) : Prop :=
  contains (body r) (uuid_str (uuid4 w)) = true.

(** The names of the four configuration values in the environment. *)
Definition config_name (k : config_key) : pystr :=
  match k with
  | KeyGoogle => py "GOOGLE_API_KEY"
  | KeySerpApi => py "SERPAPI_API_KEY"
  | KeyBucket => py "S3_BUCKET_NAME"
  | KeyTable => py "DYNAMODB_TABLE_NAME"
  end.

(** C7 as the specification words it: an invocation behaves as the
    environment at invocation time ([now]) dictates, whatever the environment
    was when the module was imported ([at_load]). *)
Definition environment_read_at_invocation
           (at_load now : environ) (sdk : Sdk) (w : World) (event : pyval)
  : Prop :=
  invoke (setenv now (cold_start at_load)) sdk w event =
  invoke (cold_start now) sdk w event.

Definition full_environ : environ :=
  [(py "S3_BUCKET_NAME", py "reports-bucket");
   (py "DYNAMODB_TABLE_NAME", py "research-tasks");
   (py "GOOGLE_API_KEY", py "g-key");
   (py "SERPAPI_API_KEY", py "s-key")].

(** C8 as the specification words it: the invocation follows the main path
    or its single failure edge, and ends in a response. *)
Definition spec_state_machine (g : Globals) (out : result response * trace)
  : Prop :=
  handler_path g out /\ responds out.

Definition missing_key_error : raised :=
  {| exc_type := OtherException (py "ValidationError");
     exc_detail := py "pydantic.ValidationError: API key required" |}.

(** An SDK whose constructors raise when their key is not in the
    environment, and whose other calls return. *)
Definition key_reading_sdk : Sdk :=
  fun env =>
    {| llm_call :=
         if py_not (os_environ_get env (py "GOOGLE_API_KEY"))
         then Some missing_key_error else None;
       search_call :=
         if py_not (os_environ_get env (py "SERPAPI_API_KEY"))
         then Some missing_key_error else None;
       agent_call := None;
       answer_call := Ok (py "Coral bleaching report...");
       s3_call := None;
       completed_call := None;
       failed_call := None |}.

(** Request validation does not raise: it rejects the request or yields a
    topic. *)
Definition validation_returns (w : World) (event : pyval) : Prop :=
  forall e, fst (parse_request w event []) <> Raise e.

(** The log lines the invocation meets can be written: the topic of line
    47, and the traceback of lines 113-115 when the second [try] block
    raises. *)
Definition logs_writable (g : Globals) (w : World) (event : pyval) : Prop :=
  forall topic,
    fst (parse_request w event []) = Ok (inr topic) ->
    loggable_value topic = true /\
    forall e, task_raises g w topic e -> loggable (format_exc e) = true.

(* ================================================================== *)
(** ** Vocabulary of the further properties *)

(** The object key of a task (line 80). *)
Definition report_key (task_id : pystr) : pystr :=
  py "reports/" ++ task_id ++ py ".txt".

(** What an outside call of an invocation serving [topic] can be: the
    three constructors; the agent run on that topic; a [put_object] of the
    encoded answer of the agent into the configured bucket under the key of
    this task; a [put_item] into the configured table of the COMPLETED item or
    of a FAILED item of this task. *)
Definition expected_call (g : Globals) (w : World) (topic : pyval) (c : call)
  : Prop :=
  match c with
  | ChatGoogleGenerativeAI | SerpAPIWrapper | initialize_agent => True
  | agent_run t => t = topic
  | put_object bucket key bytes content_type =>
      bucket = S3_BUCKET_NAME g /\
      key = report_key (uuid_str (uuid4 w)) /\
      content_type = py "text/plain" /\
      exists report,
        agent_answer w = Ok report /\ utf8_encode report = Some bytes
  | put_item table item =>
      table = DYNAMODB_TABLE_NAME g /\
      (item = completed_item (uuid_str (uuid4 w)) topic
                (report_key (uuid_str (uuid4 w))) (utcnow_completed w) \/
       exists e,
         item = failed_item (uuid_str (uuid4 w)) topic (format_exc e)
                  (utcnow_failed w))
  end.

(** A report whose second character is a lone surrogate. *)
Definition broken_report : pystr := [82; 0xD800; 46].

Definition digits_limit_error : raised :=
  {| exc_type := OtherException (py "ValueError");
     exc_detail :=
       py "ValueError: Exceeds the limit (4300 digits) for integer string conversion" |}.

(** [json.loads] on a few more documents: the array [[]], a request whose
    topic is the number 7, and a number of 4500 digits, which the integer
    conversion of the decoder refuses with a plain [ValueError]. *)
Definition number_body : pystr :=
  py "{" ++ quoted (py "topic") ++ py ": 7}".

Definition huge_number : pystr := repeat 49 4500.

Definition decode_more (s : pystr) : result pyval :=
  if str_eqb s (py "[]") then Ok (VList [])
  else if str_eqb s number_body then Ok (VDict [(py "topic", VInt 7)])
  else if str_eqb s huge_number then Raise digits_limit_error
  else decode_table s.

Definition world_decoding (decode : pystr -> result pyval) (w : World)
  : World :=
  {| json_decode := decode;
     uuid4 := uuid4 w;
     codec_traceback := codec_traceback w;
     llm_init := llm_init w;
     search_init := search_init w;
     agent_init := agent_init w;
     agent_answer := agent_answer w;
     s3_put := s3_put w;
     put_completed := put_completed w;
     put_failed := put_failed w;
     utcnow_completed := utcnow_completed w;
     utcnow_failed := utcnow_failed w |}.

(** The field ranges of a [datetime] object. *)
Definition valid_datetime (t : datetime) : Prop :=
  1 <= year t <= 9999 /\ 1 <= month t <= 12 /\ 1 <= day t <= 31 /\
  hour t < 24 /\ minute t < 60 /\ second t < 60 /\ microsecond t < 1000000.

(** Characters [json.dumps] prints as they are. *)
Definition unescaped (c : N) : Prop := printable c /\ c <> 34 /\ c <> 92.

Definition unescapedb (c : N) : bool :=
  printableb c && negb (c =? 34) && negb (c =? 92).

(** The request body [{"topic": "\ud800"}], whose topic decodes to a lone
    surrogate. *)
Definition surrogate_body : pystr :=
  py "{" ++ quoted (py "topic") ++ py ": " ++ quoted (py "\ud800") ++ py "}".

Definition decode_surrogate (s : pystr) : result pyval :=
  if str_eqb s surrogate_body then Ok (VDict [(py "topic", VStr [0xD800])])
  else decode_more s.

(** An exception whose message holds a lone surrogate. *)
Definition unprintable_error : raised :=
  {| exc_type := OtherException (py "RuntimeError");
     exc_detail := py "RuntimeError: " ++ [0xD800] |}.

(* ================================================================== *)
(** ** Basic facts about the blocks of the handler *)

Arguments uuid_str : simpl never.
Arguments isoformat : simpl never.
Arguments json_dumps : simpl never.
Arguments py : simpl never.
Arguments format_exc : simpl never.

Lemma config_present_spec (g : Globals) :
  config_present g = true <->
  py_not (GOOGLE_API_KEY g) = false /\ py_not (SERPAPI_API_KEY g) = false /\
  py_not (S3_BUCKET_NAME g) = false /\ py_not (DYNAMODB_TABLE_NAME g) = false.
Proof.
  unfold config_present.
  destruct (py_not (GOOGLE_API_KEY g)), (py_not (SERPAPI_API_KEY g)),
    (py_not (S3_BUCKET_NAME g)), (py_not (DYNAMODB_TABLE_NAME g));
    cbn; intuition congruence.
Qed.

Lemma config_absent_spec (g : Globals) :
  config_present g = false <-> exists k, py_not (config_value g k) = true.
Proof.
  unfold config_present. split.
  - destruct (py_not (GOOGLE_API_KEY g)) eqn:Eg;
      [ intros _; now exists KeyGoogle | ].
    destruct (py_not (SERPAPI_API_KEY g)) eqn:Es;
      [ intros _; now exists KeySerpApi | ].
    destruct (py_not (S3_BUCKET_NAME g)) eqn:Eb;
      [ intros _; now exists KeyBucket | ].
    destruct (py_not (DYNAMODB_TABLE_NAME g)) eqn:Et;
      [ intros _; now exists KeyTable | ].
    cbn. discriminate.
  - intros [k Hk]. destruct k; cbn in Hk; rewrite Hk; cbn;
      repeat rewrite ?andb_false_r, ?andb_false_l; reflexivity.
Qed.

(** Past the configuration gate the handler is its request block followed
    by its task block. *)
Lemma lambda_handler_past_gate (g : Globals) (w : World) (event : pyval) :
  config_present g = true ->
  lambda_handler g w event =
  (parsed <- parse_request w event ;;
   match parsed with
   | inl early => ret early
   | inr research_topic =>
       print_log w StartLog (loggable_value research_topic) ;;;
       try_except
         (research_and_store g w research_topic (uuid_str (uuid4 w)))
         (fun _ => true)
         (record_failure g w research_topic (uuid_str (uuid4 w)))
   end).
Proof.
  intros H. apply config_present_spec in H as (Hg & Hs & Hb & Ht).
  unfold lambda_handler. rewrite Hg, Hs, Hb, Ht. reflexivity.
Qed.

(** The request block makes no outside call. *)
Lemma parse_request_frame (w : World) (event : pyval) (tr : trace) :
  parse_request w event tr = (fst (parse_request w event []), tr).
Proof.
  unfold parse_request, try_except, bind, lift, ret.
  destruct (py_get event (py "body") (VStr (py "{}"))) as [b|e]; cbn.
  - destruct (json_loads w b) as [b'|e]; cbn.
    + destruct (py_get b' (py "topic") VNone) as [t|e]; cbn.
      * destruct (truthy t); reflexivity.
      * destruct (is_JSONDecodeError e); reflexivity.
    + destruct (is_JSONDecodeError e); reflexivity.
  - destruct (is_JSONDecodeError e); reflexivity.
Qed.

(* ================================================================== *)
(** ** The configuration gate (lines 21-29) *)

(** With a value missing the handler stops at the gate. *)
Lemma run_config_absent (g : Globals) (w : World) (event : pyval) :
  config_present g = false ->
  exists c, run g w event = (Ok (error_response 500 (category_message c)), []).
Proof.
  intros Hc. unfold config_present in Hc. unfold run, lambda_handler.
  destruct (py_not (GOOGLE_API_KEY g)); [now exists GoogleApiKey|].
  destruct (py_not (SERPAPI_API_KEY g)); [now exists SerpApiKey|].
  destruct (py_not (S3_BUCKET_NAME g)); [now exists AwsResourceNames|].
  destruct (py_not (DYNAMODB_TABLE_NAME g)); [now exists AwsResourceNames|].
  discriminate.
Qed.

Lemma category_message_inj (c1 c2 : category) :
  category_message c1 = category_message c2 -> c1 = c2.
Proof.
  destruct c1, c2; intros H; try reflexivity; vm_compute in H; discriminate.
Qed.

(** C4.  When any of the four configuration values is absent or empty the
    handler returns 500 with the configuration-error body of a category that
    is indeed missing, and makes no outside call at all (so no store write),
    whatever the event and the world are.  This holds for each of the four
    values: when the value is the only one missing, the message is the one
    of its own category, and the messages of distinct categories differ. *)
Theorem config_gate (g : Globals) (w : World) (event : pyval) (k : config_key) :
  py_not (config_value g k) = true ->
  exists c,
    run g w event = (Ok (error_response 500 (category_message c)), []) /\
    (exists k', category_of k' = c /\ py_not (config_value g k') = true) /\
    ((forall k', k' <> k -> py_not (config_value g k') = false) ->
     c = category_of k) /\
    (forall c', category_message c' = category_message c -> c' = c).
Proof.
  intros Hk. unfold run, lambda_handler.
  destruct (py_not (GOOGLE_API_KEY g)) eqn:Eg.
  { exists GoogleApiKey. split; [reflexivity|]. split.
    - exists KeyGoogle. auto.
    - split; [|intros; now apply category_message_inj].
      intros Honly. destruct k; try reflexivity;
        specialize (Honly KeyGoogle); cbn in Honly;
        rewrite Honly in Eg; discriminate. }
  destruct (py_not (SERPAPI_API_KEY g)) eqn:Es.
  { exists SerpApiKey. split; [reflexivity|]. split.
    - exists KeySerpApi. auto.
    - split; [|intros; now apply category_message_inj].
      intros Honly. destruct k; try reflexivity; cbn in Hk;
        try congruence;
        specialize (Honly KeySerpApi); cbn in Honly;
        rewrite Honly in Es; discriminate. }
  destruct (py_not (S3_BUCKET_NAME g) || py_not (DYNAMODB_TABLE_NAME g)) eqn:Ea.
  { exists AwsResourceNames. split; [reflexivity|]. split.
    - apply orb_true_iff in Ea as [Ea|Ea];
        [exists KeyBucket | exists KeyTable]; auto.
    - split; [|intros; now apply category_message_inj].
      intros _. destruct k; cbn in Hk |- *; congruence. }
  apply orb_false_iff in Ea as [Eb Et].
  destruct k; cbn in Hk; congruence.
Qed.

Lemma config_gate_witness :
  exists c,
    run (import_module [(py "GOOGLE_API_KEY", py "g-key");
                        (py "SERPAPI_API_KEY", py "s-key");
                        (py "S3_BUCKET_NAME", py "reports-bucket")])
        calm_world coral_event
    = (Ok (error_response 500 (category_message c)), []) /\
    c = AwsResourceNames.
Proof.
  destruct (config_gate
              (import_module [(py "GOOGLE_API_KEY", py "g-key");
                              (py "SERPAPI_API_KEY", py "s-key");
                              (py "S3_BUCKET_NAME", py "reports-bucket")])
              calm_world coral_event KeyTable) as (c & Hrun & _ & Honly & _).
  - reflexivity.
  - exists c. split; [exact Hrun|].
    apply Honly. intros k' Hk'. destruct k'; try reflexivity. congruence.
Defined.

(* ================================================================== *)
(** ** The request block (lines 32-44) *)

Lemma parse_request_outcomes (w : World) (event : pyval) :
  match fst (parse_request w event []) with
  | Ok (inl r) => statusCode r = 400%Z
  | Ok (inr t) => truthy t = true
  | Raise e => is_JSONDecodeError e = false
  end.
Proof.
  unfold parse_request, try_except, bind, lift, ret.
  destruct (py_get event (py "body") (VStr (py "{}"))) as [b|e]; cbn.
  - destruct (json_loads w b) as [b'|e]; cbn.
    + destruct (py_get b' (py "topic") VNone) as [t|e]; cbn.
      * destruct (truthy t) eqn:Et; cbn; auto.
      * destruct (is_JSONDecodeError e) eqn:Ee; cbn; auto.
    + destruct (is_JSONDecodeError e) eqn:Ee; cbn; auto.
  - destruct (is_JSONDecodeError e) eqn:Ee; cbn; auto.
Qed.

Lemma parse_request_valid (w : World) (event topic : pyval) (tr : trace) :
  valid_request w event topic ->
  parse_request w event tr = (Ok (inr topic), tr).
Proof.
  intros (ev & s & b & -> & Hbody & Hdec & Htopic & Htrue).
  unfold parse_request, try_except, bind, lift, ret, py_get, json_loads.
  rewrite Hbody, Hdec, Htopic, Htrue. reflexivity.
Qed.

Lemma run_request_returns (g : Globals) (w : World) (event : pyval)
      (r : response) :
  config_present g = true ->
  fst (parse_request w event []) = Ok (inl r) ->
  run g w event = (Ok r, []).
Proof.
  intros Hc Hp. unfold run. rewrite (lambda_handler_past_gate g w event Hc).
  unfold bind. rewrite parse_request_frame, Hp. reflexivity.
Qed.

Lemma run_request_raises (g : Globals) (w : World) (event : pyval)
      (e : raised) :
  config_present g = true ->
  fst (parse_request w event []) = Raise e ->
  run g w event = (Raise e, []).
Proof.
  intros Hc Hp. unfold run. rewrite (lambda_handler_past_gate g w event Hc).
  unfold bind. rewrite parse_request_frame, Hp. reflexivity.
Qed.

(** C3 (amended).  Past the configuration gate, a request whose body is a
    string that [json.loads] rejects with [JSONDecodeError] gets 400 "Invalid
    JSON", and one whose body decodes to an object without "topic", or with a
    "topic" that is empty (or any other false value), gets 400 "Missing
    topic"; in both cases the handler makes no outside call, so nothing is
    written to either store. *)
Theorem bad_request_rejected_past_gate
        (g : Globals) (w : World) (ev : list (pystr * pyval)) (s : pystr) :
  config_present g = true ->
  assoc (py "body") ev = Some (VStr s) ->
  bad_request_rejected g w ev s.
Proof.
  intros Hc Hbody. split.
  - intros e Hdec He. apply run_request_returns; [exact Hc|].
    unfold parse_request, try_except, bind, lift, ret, py_get, json_loads.
    rewrite Hbody, Hdec, He. reflexivity.
  - intros b Hdec Htopic. apply run_request_returns; [exact Hc|].
    unfold parse_request, try_except, bind, lift, ret, py_get, json_loads.
    rewrite Hbody, Hdec.
    destruct Htopic as [Hnone | (t & Hsome & Hfalse)].
    + rewrite Hnone. reflexivity.
    + rewrite Hsome, Hfalse. reflexivity.
Qed.

Lemma bad_request_rejected_past_gate_witness :
  bad_request_rejected full_config calm_world
    [(py "body", VStr (py "{}"))] (py "{}") /\
  bad_request_rejected full_config calm_world
    [(py "body", VStr (py "not json"))] (py "not json").
Proof.
  split; apply bad_request_rejected_past_gate; reflexivity.
Defined.

(** C3 as stated fails: with the Google key unset, a request with a
    malformed body is answered 500 by the configuration gate, not 400. *)
Lemma bad_request_not_rejected_before_gate :
  assoc (py "body") [(py "body", VStr (py "not json"))]
    = Some (VStr (py "not json")) /\
  ~ bad_request_rejected (import_module []) calm_world
      [(py "body", VStr (py "not json"))] (py "not json").
Proof.
  split; [reflexivity|].
  intros [Hbad _].
  specialize (Hbad decode_error eq_refl eq_refl).
  vm_compute in Hbad. discriminate.
Qed.

(** C9 (amended).  Past the configuration gate, an event without a "body"
    key is handled exactly as the same event with the body text [{}]; as
    [json.loads] turns that text into the empty dict, the handler answers 400
    "Missing topic" without any outside call: it neither raises nor answers
    500. *)
Theorem missing_body_defaulted_past_gate
        (g : Globals) (w : World) (ev : list (pystr * pyval)) :
  config_present g = true ->
  json_decode w (py "{}") = Ok (VDict []) ->
  assoc (py "body") ev = None ->
  missing_body_defaulted g w ev.
Proof.
  intros Hc Hdec Hbody.
  assert (Hrun : forall ev',
             assoc (py "body") ev' = None \/
             assoc (py "body") ev' = Some (VStr (py "{}")) ->
             run g w (VDict ev') = (Ok missing_topic_response, [])).
  { intros ev' Hev'. apply run_request_returns; [exact Hc|].
    unfold parse_request, try_except, bind, lift, ret, py_get, json_loads.
    destruct Hev' as [-> | ->]; rewrite Hdec; reflexivity. }
  split.
  - rewrite (Hrun ev) by (left; exact Hbody).
    rewrite Hrun by (right; reflexivity). reflexivity.
  - apply Hrun. left. exact Hbody.
Qed.

Lemma missing_body_defaulted_past_gate_witness :
  missing_body_defaulted full_config calm_world
    [(py "httpMethod", VStr (py "POST"))].
Proof.
  apply missing_body_defaulted_past_gate; reflexivity.
Defined.

(** C9 as stated fails: with the table name unset, an event without "body"
    is answered 500 by the configuration gate. *)
Lemma missing_body_before_gate_is_500 :
  assoc (py "body") (@nil (pystr * pyval)) = None /\
  json_decode calm_world (py "{}") = Ok (VDict []) /\
  ~ missing_body_defaulted
      (import_module [(py "GOOGLE_API_KEY", py "g-key");
                      (py "SERPAPI_API_KEY", py "s-key");
                      (py "S3_BUCKET_NAME", py "reports-bucket")])
      calm_world [] /\
  fst (run (import_module [(py "GOOGLE_API_KEY", py "g-key");
                           (py "SERPAPI_API_KEY", py "s-key");
                           (py "S3_BUCKET_NAME", py "reports-bucket")])
           calm_world (VDict []))
  = Ok (error_response 500 (category_message AwsResourceNames)).
Proof.
  split; [reflexivity|]. split; [reflexivity|]. split.
  - intros [_ H]. vm_compute in H. discriminate.
  - reflexivity.
Qed.

(** C10.  Past the configuration gate, an event whose "body" is present
    but is not a string (an already decoded object, [null], a number) makes
    [json.loads] raise [TypeError]; the [except json.JSONDecodeError] clause
    does not catch it and the second [try] has not been entered, so the
    handler raises: no response is returned and no outside call is made. *)
Theorem non_string_body_raises
        (g : Globals) (w : World) (ev : list (pystr * pyval)) (v : pyval) :
  config_present g = true ->
  assoc (py "body") ev = Some v ->
  (forall s, v <> VStr s) ->
  run g w (VDict ev) = (Raise not_a_json_document, []) /\
  exc_type not_a_json_document = TypeError /\
  is_JSONDecodeError not_a_json_document = false.
Proof.
  intros Hc Hbody Hv. split; [|split; reflexivity].
  apply run_request_raises; [exact Hc|].
  unfold parse_request, try_except, bind, lift, ret, py_get, json_loads.
  rewrite Hbody.
  destruct v; try reflexivity. exfalso. eapply Hv. reflexivity.
Qed.

Lemma non_string_body_raises_witness :
  run full_config calm_world
      (VDict [(py "body", VDict [(py "topic", VStr (py "coral bleaching"))])])
  = (Raise not_a_json_document, []) /\
  run full_config calm_world (VDict [(py "body", VNone)])
  = (Raise not_a_json_document, []).
Proof.
  split.
  - apply (non_string_body_raises full_config calm_world
             [(py "body", VDict [(py "topic", VStr (py "coral bleaching"))])]
             (VDict [(py "topic", VStr (py "coral bleaching"))])).
    + reflexivity.
    + reflexivity.
    + intros s; discriminate.
  - apply (non_string_body_raises full_config calm_world
             [(py "body", VNone)] VNone).
    + reflexivity.
    + reflexivity.
    + intros s; discriminate.
Defined.

(* ================================================================== *)
(** ** The encoders produce what their formats promise *)

Lemma lor_below (a b : N) (n : N) :
  a < 2 ^ n -> b < 2 ^ n -> N.lor a b < 2 ^ n.
Proof.
  intros Ha Hb.
  destruct (N.eq_dec a 0) as [->|Ha0]; [now rewrite N.lor_0_l|].
  destruct (N.eq_dec b 0) as [->|Hb0]; [now rewrite N.lor_0_r|].
  assert (Hab : N.lor a b <> 0) by (rewrite N.lor_eq_0_iff; tauto).
  apply N.log2_lt_pow2; [lia|].
  rewrite N.log2_lor.
  apply N.log2_lt_pow2 in Ha; [|lia]. apply N.log2_lt_pow2 in Hb; [|lia].
  lia.
Qed.

Lemma continuation_byte (x : N) : N.lor 0x80 (N.land x 0x3F) < 256.
Proof.
  apply (lor_below _ _ 8); [reflexivity|].
  pose proof (N.land_le_r x 0x3F). cbn. lia.
Qed.

Lemma leading_byte (mark c shift bound : N) :
  mark < 256 -> c < bound * 2 ^ shift -> bound <= 256 ->
  N.lor mark (N.shiftr c shift) < 256.
Proof.
  intros Hm Hc Hb. apply (lor_below _ _ 8); [exact Hm|].
  rewrite N.shiftr_div_pow2.
  assert (c / 2 ^ shift < bound).
  { apply N.Div0.div_lt_upper_bound. lia. }
  change (2 ^ 8) with 256. lia.
Qed.

(** Every element of an encoded string is an octet. *)
Lemma utf8_encode_char_octets (c : N) :
  match utf8_encode_char c with
  | Some bytes => Forall (fun b => b < 256) bytes
  | None => True
  end.
Proof.
  unfold utf8_encode_char.
  destruct (N.ltb_spec c 0x80) as [H1|H1].
  { constructor; [lia | constructor]. }
  destruct (N.ltb_spec c 0x800) as [H2|H2].
  { constructor; [|constructor; [|constructor]].
    - apply (leading_byte 0xC0 c 6 32); [reflexivity | exact H2 | discriminate].
    - apply continuation_byte. }
  destruct (N.ltb_spec c 0x10000) as [H3|H3].
  { destruct ((0xD800 <=? c) && (c <=? 0xDFFF)); [exact I|].
    constructor; [|constructor; [|constructor; [|constructor]]].
    - apply (leading_byte 0xE0 c 12 16); [reflexivity | exact H3 | discriminate].
    - apply continuation_byte.
    - apply continuation_byte. }
  destruct (N.ltb_spec c 0x110000) as [H4|H4]; [|exact I].
  constructor;
    [|constructor; [|constructor; [|constructor; [|constructor]]]].
  - apply (leading_byte 0xF0 c 18 8); [reflexivity | | discriminate].
    change (8 * 2 ^ 18) with 0x200000. lia.
  - apply continuation_byte.
  - apply continuation_byte.
  - apply continuation_byte.
Qed.

Lemma utf8_encode_octets (s : pystr) (bytes : pybytes) :
  utf8_encode s = Some bytes -> Forall (fun b => b < 256) bytes.
Proof.
  revert bytes. induction s as [|c s IH]; cbn [utf8_encode]; intros bytes.
  - intros [= <-]. constructor.
  - destruct (utf8_encode_char c) as [b|] eqn:Hc; [|discriminate].
    destruct (utf8_encode s) as [bs|]; [|discriminate].
    intros [= <-]. apply Forall_app. split.
    + pose proof (utf8_encode_char_octets c) as Hb. now rewrite Hc in Hb.
    + now apply IH.
Qed.

(** ASCII text is encoded as itself. *)
Lemma utf8_encode_ascii (s : pystr) :
  Forall (fun c => c < 0x80) s -> utf8_encode s = Some s.
Proof.
  induction 1 as [|c s Hc _ IH]; cbn [utf8_encode]; [reflexivity|].
  rewrite IH. unfold utf8_encode_char.
  apply N.ltb_lt in Hc. now rewrite Hc.
Qed.

Lemma digit_char_printable (d : N) : d < 16 -> printable (digit_char d).
Proof.
  unfold digit_char, printable. intros Hd.
  destruct (N.ltb_spec d 10); lia.
Qed.

Lemma fixed_digits_hex_printable (width : nat) (n : N) :
  Forall printable (fixed_digits 16 width n).
Proof.
  revert n. induction width as [|width IH]; intros n; cbn [fixed_digits];
    [constructor|].
  apply Forall_app. split; [apply IH|].
  constructor; [|constructor].
  apply digit_char_printable. apply N.mod_lt. discriminate.
Qed.

Lemma printableb_sound (l : pystr) :
  forallb printableb l = true -> Forall printable l.
Proof.
  induction l as [|c l IH]; cbn [forallb]; intros H; [constructor|].
  apply andb_true_iff in H as [Hc Hl]. constructor; [|now apply IH].
  unfold printableb in Hc. apply andb_true_iff in Hc as [Hlo Hhi].
  apply N.leb_le in Hlo, Hhi. unfold printable. lia.
Qed.

(** [json.dumps] with [ensure_ascii] only prints printable ASCII. *)
Lemma json_escape_char_printable (c : N) :
  Forall printable (json_escape_char c).
Proof.
  unfold json_escape_char, hex4.
  destruct (c =? 34); [apply printableb_sound; reflexivity|].
  destruct (c =? 92); [apply printableb_sound; reflexivity|].
  destruct (c =? 8); [apply printableb_sound; reflexivity|].
  destruct (c =? 12); [apply printableb_sound; reflexivity|].
  destruct (c =? 10); [apply printableb_sound; reflexivity|].
  destruct (c =? 13); [apply printableb_sound; reflexivity|].
  destruct (c =? 9); [apply printableb_sound; reflexivity|].
  destruct ((32 <=? c) && (c <=? 126)) eqn:Hc.
  { apply printableb_sound. cbn [forallb]. unfold printableb.
    now rewrite Hc. }
  destruct (c <? 0x10000).
  { apply Forall_app. split;
      [apply printableb_sound; reflexivity | apply fixed_digits_hex_printable]. }
  apply Forall_app. split; [apply printableb_sound; reflexivity|].
  apply Forall_app. split; [apply fixed_digits_hex_printable|].
  apply Forall_app. split; [apply printableb_sound; reflexivity|].
  apply fixed_digits_hex_printable.
Qed.

Lemma json_string_printable (s : pystr) : Forall printable (json_string s).
Proof.
  unfold json_string. apply Forall_app. split.
  - repeat constructor; unfold printable; lia.
  - apply Forall_app. split.
    + apply Forall_flat_map. apply Forall_forall. intros c _.
      apply json_escape_char_printable.
    + repeat constructor; unfold printable; lia.
Qed.

(* ================================================================== *)
(** ** Task identifiers and timestamps *)

Lemma fixed_digits_length (base : N) (width : nat) (n : N) :
  List.length (fixed_digits base width n) = width.
Proof.
  revert n. induction width as [|width IH]; intros n; cbn [fixed_digits];
    [reflexivity|].
  rewrite length_app, IH. cbn [List.length]. lia.
Qed.

(** In base ten every character is one of [0]..[9]. *)
Lemma fixed_digits_decimal (width : nat) (n : N) :
  Forall (fun c => 48 <= c <= 57) (fixed_digits 10 width n).
Proof.
  revert n. induction width as [|width IH]; intros n; cbn [fixed_digits];
    [constructor|].
  apply Forall_app. split; [apply IH|].
  constructor; [|constructor].
  unfold digit_char.
  assert (Hd : n mod 10 < 10) by (apply N.mod_lt; discriminate).
  remember (n mod 10) as d.
  destruct (N.ltb_spec d 10); lia.
Qed.

(** [isoformat] prints 19 characters, or 26 with the microseconds. *)
Lemma isoformat_length (t : datetime) :
  List.length (isoformat t) =
  if microsecond t =? 0 then 19%nat else 26%nat.
Proof.
  unfold isoformat.
  repeat rewrite length_app. repeat rewrite fixed_digits_length.
  destruct (microsecond t =? 0); cbn;
    repeat rewrite length_app; repeat rewrite fixed_digits_length;
    reflexivity.
Qed.

(** A task identifier has 36 characters. *)
Lemma uuid_str_length (u : N) : List.length (uuid_str u) = 36%nat.
Proof.
  unfold uuid_str. cbv zeta.
  repeat rewrite length_app. repeat rewrite length_firstn.
  repeat rewrite length_skipn. repeat rewrite fixed_digits_length.
  reflexivity.
Qed.

Lemma Forall_firstn {A : Type} (P : A -> Prop) (n : nat) (l : list A) :
  Forall P l -> Forall P (firstn n l).
Proof.
  intros H. revert n. induction H as [|x l Hx _ IH]; intros [|n]; cbn;
    constructor; auto.
Qed.

Lemma Forall_skipn {A : Type} (P : A -> Prop) (n : nat) (l : list A) :
  Forall P l -> Forall P (skipn n l).
Proof.
  intros H. revert n. induction H as [|x l Hx Hl IH]; intros [|n]; cbn;
    auto.
Qed.

(** [json.dumps] leaves letters, digits and hyphens as they are. *)
Lemma json_escape_char_plain (c : N) :
  printable c -> c <> 34 -> c <> 92 -> json_escape_char c = [c].
Proof.
  unfold printable, json_escape_char. intros Hc Hq Hb.
  destruct (N.eqb_spec c 34); [contradiction|].
  destruct (N.eqb_spec c 92); [contradiction|].
  destruct (N.eqb_spec c 8); [lia|].
  destruct (N.eqb_spec c 12); [lia|].
  destruct (N.eqb_spec c 10); [lia|].
  destruct (N.eqb_spec c 13); [lia|].
  destruct (N.eqb_spec c 9); [lia|].
  replace (32 <=? c) with true by (symmetry; apply N.leb_le; lia).
  replace (c <=? 126) with true by (symmetry; apply N.leb_le; lia).
  reflexivity.
Qed.

Lemma fixed_digits_hex (width : nat) (n : N) :
  Forall hex_or_hyphen (fixed_digits 16 width n).
Proof.
  revert n. induction width as [|width IH]; intros n; cbn [fixed_digits];
    [constructor|].
  apply Forall_app. split; [apply IH|].
  constructor; [|constructor].
  unfold hex_or_hyphen, digit_char.
  assert (Hd : n mod 16 < 16) by (apply N.mod_lt; discriminate).
  remember (n mod 16) as d.
  destruct (N.ltb_spec d 10); lia.
Qed.

(** A task identifier is made of lowercase hex digits and hyphens. *)
Lemma uuid_str_charset (u : N) : Forall hex_or_hyphen (uuid_str u).
Proof.
  unfold uuid_str. cbv zeta.
  assert (Hhyphen : Forall hex_or_hyphen (py "-")).
  { constructor; [right; right; reflexivity | constructor]. }
  repeat (apply Forall_app; split);
    try exact Hhyphen;
    repeat first [apply Forall_firstn | apply Forall_skipn];
    apply fixed_digits_hex.
Qed.

Lemma json_string_plain (s : pystr) :
  Forall hex_or_hyphen s -> json_string s = quoted s.
Proof.
  intros H. unfold json_string, quoted. do 2 f_equal.
  induction H as [|c s Hc _ IH]; cbn [flat_map]; [reflexivity|].
  rewrite IH, json_escape_char_plain; [reflexivity | | | ];
    unfold hex_or_hyphen, printable in *; lia.
Qed.

Lemma starts_with_app (t b : pystr) : starts_with (t ++ b) t = true.
Proof.
  induction t as [|c t IH]; cbn; [reflexivity|].
  now rewrite N.eqb_refl, IH.
Qed.

Lemma contains_here (t b : pystr) : contains (t ++ b) t = true.
Proof.
  destruct (t ++ b) eqn:E; cbn [contains]; rewrite <- E;
    now rewrite starts_with_app.
Qed.

Lemma contains_app_r (a b t : pystr) :
  contains b t = true -> contains (a ++ b) t = true.
Proof.
  intros H. induction a as [|x a IH]; cbn [app contains]; [exact H|].
  rewrite IH. apply orb_true_r.
Qed.

(** The body of the success response holds the task identifier as it is
    stored in the registry and used in the report key. *)
Lemma success_response_names_task (g : Globals) (u : N) :
  contains (body (success_response g (uuid_str u))) (uuid_str u) = true.
Proof.
  unfold success_response, body, json_dumps. cbn [json_members json_value].
  rewrite (json_string_plain (uuid_str u)) by apply uuid_str_charset.
  unfold quoted.
  repeat rewrite <- app_assoc.
  repeat first [apply contains_here | apply contains_app_r].
Qed.

(* ================================================================== *)
(** ** The task block (lines 46-130) *)

Ltac flatten_trace :=
  repeat rewrite <- app_assoc; cbn [app].

(** The second [try] block runs to its end exactly when every call returns
    and the report can be encoded. *)
Lemma research_and_store_completes
      (g : Globals) (w : World) (topic : pyval) (tr : trace)
      (report : pystr) (bytes : pybytes) :
  agent_completes w report ->
  utf8_encode report = Some bytes ->
  s3_put w = None ->
  put_completed w = None ->
  research_and_store g w topic (uuid_str (uuid4 w)) tr =
  (Ok (success_response g (uuid_str (uuid4 w))),
   tr ++ completed_trace g w topic bytes).
Proof.
  intros (Hl & Hs & Ha & Hr) Henc Hput Hrec.
  unfold research_and_store, bind, lift, ret, extern, extern_val, encode_utf8.
  rewrite Hl, Hs, Ha, Hr, Henc, Hput, Hrec.
  unfold completed_trace. flatten_trace. reflexivity.
Qed.

(** Otherwise it raises, after a prefix of the main path; no registry
    write has returned by then, and a registry write has been attempted only
    if it is the COMPLETED one that raised. *)
Lemma research_and_store_cases
      (g : Globals) (w : World) (topic : pyval) (tr : trace) :
  (exists report bytes,
      agent_completes w report /\ utf8_encode report = Some bytes /\
      s3_put w = None /\ put_completed w = None) \/
  (exists e tr1,
      research_and_store g w topic (uuid_str (uuid4 w)) tr
      = (Raise e, tr ++ tr1) /\
      interrupted (steps tr1) /\
      writes is_put_item tr1 = [] /\
      (attempts is_put_item tr1 = [] \/
       put_completed w <> None /\
       attempts is_put_item tr1 =
       [put_item (DYNAMODB_TABLE_NAME g)
          (completed_item (uuid_str (uuid4 w)) topic
             (py "reports/" ++ uuid_str (uuid4 w) ++ py ".txt")
             (utcnow_completed w))])).
Proof.
  unfold research_and_store, bind, lift, ret, extern, extern_val, encode_utf8.
  destruct (llm_init w) as [e|] eqn:Hl.
  { right. exists e, [(ChatGoogleGenerativeAI, false)].
    repeat split; auto.
    exact (Interrupted_by_call 0 ModelConstruction eq_refl). }
  destruct (search_init w) as [e|] eqn:Hs.
  { right. exists e, [(ChatGoogleGenerativeAI, true); (SerpAPIWrapper, false)].
    flatten_trace. repeat split; auto.
    exact (Interrupted_by_call 1 SearchConstruction eq_refl). }
  destruct (agent_init w) as [e|] eqn:Ha.
  { right. exists e, [(ChatGoogleGenerativeAI, true); (SerpAPIWrapper, true);
                      (initialize_agent, false)].
    flatten_trace. repeat split; auto.
    exact (Interrupted_by_call 2 AgentConstruction eq_refl). }
  destruct (agent_answer w) as [report|e] eqn:Hr.
  2:{ right. exists e, [(ChatGoogleGenerativeAI, true); (SerpAPIWrapper, true);
                        (initialize_agent, true); (agent_run topic, false)].
      flatten_trace. repeat split; auto.
      exact (Interrupted_by_call 3 AgentInvocation eq_refl). }
  destruct (utf8_encode report) as [bytes|] eqn:Henc.
  2:{ right. exists (codec_error w ReportEncoding),
        [(ChatGoogleGenerativeAI, true); (SerpAPIWrapper, true);
         (initialize_agent, true); (agent_run topic, true)].
      flatten_trace. repeat split; auto.
      exact Interrupted_by_encoding. }
  destruct (s3_put w) as [e|] eqn:Hput.
  { right. exists e,
      [(ChatGoogleGenerativeAI, true); (SerpAPIWrapper, true);
       (initialize_agent, true); (agent_run topic, true);
       (put_object (S3_BUCKET_NAME g)
                   (py "reports/" ++ uuid_str (uuid4 w) ++ py ".txt")
                   bytes (py "text/plain"), false)].
    flatten_trace. repeat split; auto.
    exact (Interrupted_by_call 4 ReportStoreWrite eq_refl). }
  destruct (put_completed w) as [e|] eqn:Hrec.
  { right. exists e,
      [(ChatGoogleGenerativeAI, true); (SerpAPIWrapper, true);
       (initialize_agent, true); (agent_run topic, true);
       (put_object (S3_BUCKET_NAME g)
                   (py "reports/" ++ uuid_str (uuid4 w) ++ py ".txt")
                   bytes (py "text/plain"), true);
       (put_item (DYNAMODB_TABLE_NAME g)
                 (completed_item (uuid_str (uuid4 w)) topic
                    (py "reports/" ++ uuid_str (uuid4 w) ++ py ".txt")
                    (utcnow_completed w)), false)].
    flatten_trace. split; [reflexivity|]. split.
    - exact (Interrupted_by_call 5 RegistryCompleted eq_refl).
    - split; [reflexivity|]. right. split; [discriminate | reflexivity]. }
  left. exists report, bytes. repeat split; auto.
Qed.

(** The [except] clause: when the traceback can be logged, one FAILED
    write, then 500, or the exception of that write; otherwise the exception
    of the log line and no write. *)
Lemma record_failure_spec
      (g : Globals) (w : World) (topic : pyval) (e : raised) (tr : trace) :
  record_failure g w topic (uuid_str (uuid4 w)) e tr =
  if loggable (format_exc e) then
    (match put_failed w with
     | None => Ok internal_error_response
     | Some e' => Raise e'
     end,
     tr ++ [(put_item (DYNAMODB_TABLE_NAME g)
                      (failed_item (uuid_str (uuid4 w)) topic (format_exc e)
                                   (utcnow_failed w)),
             match put_failed w with None => true | Some _ => false end)])
  else (Raise (codec_error w FailureLog), tr).
Proof.
  unfold record_failure, print_log, bind, lift, ret, extern.
  destruct (loggable (format_exc e)); [|reflexivity].
  destruct (put_failed w); reflexivity.
Qed.

(** The whole invocation for a valid request, by cases. *)
Lemma run_valid_request
      (g : Globals) (w : World) (event topic : pyval) :
  config_present g = true ->
  fst (parse_request w event []) = Ok (inr topic) ->
  run g w event =
  if loggable_value topic then
    match research_and_store g w topic (uuid_str (uuid4 w)) [] with
    | (Ok r, tr) => (Ok r, tr)
    | (Raise e, tr) => record_failure g w topic (uuid_str (uuid4 w)) e tr
    end
  else (Raise (codec_error w StartLog), []).
Proof.
  intros Hc Hp. unfold run. rewrite (lambda_handler_past_gate g w event Hc).
  unfold bind. rewrite parse_request_frame, Hp.
  unfold print_log, lift, ret, try_except.
  destruct (loggable_value topic); [|reflexivity].
  destruct (research_and_store g w topic (uuid_str (uuid4 w)) []) as [[r|e] tr];
    reflexivity.
Qed.

Lemma writes_app (kind : call -> bool) (a b : trace) :
  writes kind (a ++ b) = writes kind a ++ writes kind b.
Proof. unfold writes. now rewrite filter_app, map_app. Qed.

Lemma attempts_app (kind : call -> bool) (a b : trace) :
  attempts kind (a ++ b) = attempts kind a ++ attempts kind b.
Proof. unfold attempts. now rewrite filter_app, map_app. Qed.

Lemma steps_app (a b : trace) : steps (a ++ b) = steps a ++ steps b.
Proof. unfold steps. apply map_app. Qed.

(** [str.encode('utf-8')] succeeds exactly on strings of scalar values. *)
Lemma utf8_encode_char_defined (c : N) :
  utf8_encode_char c <> None <-> scalar_value c = true.
Proof.
  unfold utf8_encode_char, scalar_value.
  destruct (N.ltb_spec c 0x80).
  { replace (c <? 0x110000) with true by (symmetry; apply N.ltb_lt; lia).
    replace (0xD800 <=? c) with false by (symmetry; apply N.leb_gt; lia).
    cbn. split; [reflexivity | discriminate]. }
  destruct (N.ltb_spec c 0x800).
  { replace (c <? 0x110000) with true by (symmetry; apply N.ltb_lt; lia).
    replace (0xD800 <=? c) with false by (symmetry; apply N.leb_gt; lia).
    cbn. split; [reflexivity | discriminate]. }
  destruct (N.ltb_spec c 0x10000).
  { replace (c <? 0x110000) with true by (symmetry; apply N.ltb_lt; lia).
    destruct ((0xD800 <=? c) && (c <=? 0xDFFF)); cbn.
    - split; [congruence | discriminate].
    - split; [reflexivity | discriminate]. }
  replace (0xD800 <=? c) with true by (symmetry; apply N.leb_le; lia).
  replace (c <=? 0xDFFF) with false by (symmetry; apply N.leb_gt; lia).
  destruct (c <? 0x110000); cbn.
  - split; [reflexivity | discriminate].
  - split; [congruence | discriminate].
Qed.

Lemma utf8_encode_defined (s : pystr) :
  forallb scalar_value s = true -> exists bytes, utf8_encode s = Some bytes.
Proof.
  induction s as [|c s IH]; cbn [forallb utf8_encode].
  - intros _. now exists [].
  - intros H. apply andb_true_iff in H as [Hc Hs].
    destruct (IH Hs) as [bs ->].
    apply utf8_encode_char_defined in Hc.
    destruct (utf8_encode_char c) as [b|]; [|congruence].
    now exists (b ++ bs).
Qed.

(** C1 (amended).  With the four configuration values present, a request
    that carries a topic which can be written to the log (it is not a string
    holding a surrogate), an agent that is built and returns a report made of
    scalar values (so that it can be encoded), and both store calls
    returning: exactly one object is written, whose body is the UTF-8
    encoding of the report, under [reports/<task_id>.txt] with content type
    [text/plain]; exactly one record is written, holding the task id, the
    topic, the same key, status COMPLETED and the [isoformat] of the UTC
    clock; and the response is 200 with message, task id, bucket and key. *)
Theorem report_delivered_when_stores_accept
        (g : Globals) (w : World) (event topic : pyval) (report : pystr) :
  config_present g = true ->
  valid_request w event topic ->
  loggable_value topic = true ->
  agent_completes w report ->
  forallb scalar_value report = true ->
  s3_put w = None ->
  put_completed w = None ->
  report_delivered g w event topic report.
Proof.
  intros Hc Hreq Hlog Hagent Hscalar Hput Hrec.
  destruct (utf8_encode_defined report Hscalar) as [bytes Henc].
  pose proof (parse_request_valid w event topic [] Hreq) as Hp.
  assert (Hrun : run g w event =
                 (Ok (success_response g (uuid_str (uuid4 w))),
                  completed_trace g w topic bytes)).
  { rewrite (run_valid_request g w event topic Hc) by (now rewrite Hp).
    rewrite Hlog.
    now rewrite (research_and_store_completes g w topic [] report bytes). }
  unfold report_delivered. rewrite Hrun. cbn [fst snd].
  split; [exists bytes; split; [exact Henc | reflexivity] |].
  split; reflexivity.
Qed.

Lemma report_delivered_when_stores_accept_witness :
  report_delivered full_config calm_world coral_event
    (VStr (py "coral bleaching")) (py "Coral bleaching report...").
Proof.
  apply report_delivered_when_stores_accept; try reflexivity.
  - exists [(py "body", VStr coral_body)], coral_body,
      [(py "topic", VStr (py "coral bleaching"))].
    repeat split; reflexivity.
  - repeat split; reflexivity.
Defined.

(** C1 as stated fails: configuration present, valid request, agent
    returning its report, and [put_object] raising: no object is written and
    the response is not 200. *)
Lemma report_not_delivered_when_put_object_raises :
  config_present full_config = true /\
  valid_request
    (world_with (Ok (py "Coral bleaching report...")) (Some access_denied)
                None None)
    coral_event (VStr (py "coral bleaching")) /\
  agent_completes
    (world_with (Ok (py "Coral bleaching report...")) (Some access_denied)
                None None)
    (py "Coral bleaching report...") /\
  ~ report_delivered full_config
      (world_with (Ok (py "Coral bleaching report...")) (Some access_denied)
                  None None)
      coral_event (VStr (py "coral bleaching"))
      (py "Coral bleaching report...").
Proof.
  split; [reflexivity|]. split.
  { exists [(py "body", VStr coral_body)], coral_body,
      [(py "topic", VStr (py "coral bleaching"))].
    repeat split; reflexivity. }
  split; [repeat split; reflexivity|].
  intros (_ & _ & H). vm_compute in H. discriminate.
Qed.

Lemma format_exc_not_empty (e : raised) : format_exc e <> [].
Proof. unfold format_exc, traceback_header. cbn. discriminate. Qed.

(** What an invocation does once the second [try] block has raised. *)
Lemma run_task_raised
      (g : Globals) (w : World) (event topic : pyval) (e : raised) :
  config_present g = true ->
  fst (parse_request w event []) = Ok (inr topic) ->
  task_raises g w topic e ->
  exists tr1,
    research_and_store g w topic (uuid_str (uuid4 w)) [] = (Raise e, tr1) /\
    interrupted (steps tr1) /\
    writes is_put_item tr1 = [] /\
    run g w event =
    if loggable_value topic then
      if loggable (format_exc e) then
        (match put_failed w with
         | None => Ok internal_error_response
         | Some e' => Raise e'
         end,
         tr1 ++ [(put_item (DYNAMODB_TABLE_NAME g)
                    (failed_item (uuid_str (uuid4 w)) topic (format_exc e)
                                 (utcnow_failed w)),
                  match put_failed w with None => true | Some _ => false end)])
      else (Raise (codec_error w FailureLog), tr1)
    else (Raise (codec_error w StartLog), []).
Proof.
  intros Hc Hp Hraise. unfold task_raises in Hraise.
  rewrite (run_valid_request g w event topic Hc Hp).
  destruct (research_and_store_cases g w topic [])
    as [(report & bytes & Ha & He & Hs & Hr) | (e' & tr1 & Hrs & Hint & Hw & _)].
  - rewrite (research_and_store_completes g w topic [] report bytes)
      in Hraise by assumption.
    discriminate.
  - rewrite Hrs in Hraise |- *. cbn in Hraise. injection Hraise as ->.
    exists tr1. cbn [app]. repeat split; auto.
    now rewrite record_failure_spec.
Qed.

(** C2 (amended).  With the configuration present and a request that
    carries a topic, when the second [try] block raises [e] (in agent
    construction, in the agent run, in encoding or writing the report, or in
    the COMPLETED registry write), the log lines of lines 47 and 113-115 can
    be written (neither the topic nor the traceback holds a surrogate) and
    the FAILED [put_item] returns: exactly one registry write returns, its
    item holds the task id, the topic, status FAILED, the text of
    [traceback.format_exc()] (never empty) and the [isoformat] of the UTC
    clock, it has no report key, and the response is 500. *)
Theorem failure_recorded_when_registry_accepts
        (g : Globals) (w : World) (event topic : pyval) (e : raised) :
  config_present g = true ->
  valid_request w event topic ->
  loggable_value topic = true ->
  task_raises g w topic e ->
  loggable (format_exc e) = true ->
  put_failed w = None ->
  failure_recorded g w event topic e /\
  statusCode internal_error_response = 500%Z /\
  format_exc e <> [] /\
  assoc (py "s3_report_key")
        (failed_item (uuid_str (uuid4 w)) topic (format_exc e)
                     (utcnow_failed w)) = None.
Proof.
  intros Hc Hreq Hlog Hraise Htrace Hfail.
  pose proof (parse_request_valid w event topic [] Hreq) as Hp.
  destruct (run_task_raised g w event topic e Hc)
    as (tr1 & _ & _ & Hw & Hrun);
    [now rewrite Hp | exact Hraise |].
  rewrite Hlog, Htrace, Hfail in Hrun.
  split; [|split; [reflexivity | split; [apply format_exc_not_empty | reflexivity]]].
  unfold failure_recorded. rewrite Hrun. cbn [fst snd].
  rewrite writes_app, Hw. split; reflexivity.
Qed.

Lemma failure_recorded_when_registry_accepts_witness :
  failure_recorded full_config
    (world_with (Raise provider_error) None None None)
    coral_event (VStr (py "coral bleaching")) provider_error.
Proof.
  apply (failure_recorded_when_registry_accepts full_config
           (world_with (Raise provider_error) None None None)
           coral_event (VStr (py "coral bleaching")) provider_error).
  - reflexivity.
  - exists [(py "body", VStr coral_body)], coral_body,
      [(py "topic", VStr (py "coral bleaching"))].
    repeat split; reflexivity.
  - reflexivity.
  - reflexivity.
  - reflexivity.
  - reflexivity.
Defined.

(** C2 as stated fails: the agent raises and the FAILED [put_item] raises
    as well: the handler raises, no record is written and no response is
    returned. *)
Lemma failure_not_recorded_when_put_item_raises :
  config_present full_config = true /\
  valid_request
    (world_with (Raise provider_error) None None (Some throttled))
    coral_event (VStr (py "coral bleaching")) /\
  task_raises full_config
    (world_with (Raise provider_error) None None (Some throttled))
    (VStr (py "coral bleaching")) provider_error /\
  ~ failure_recorded full_config
      (world_with (Raise provider_error) None None (Some throttled))
      coral_event (VStr (py "coral bleaching")) provider_error /\
  fst (run full_config
           (world_with (Raise provider_error) None None (Some throttled))
           coral_event) = Raise throttled.
Proof.
  split; [reflexivity|]. split.
  { exists [(py "body", VStr coral_body)], coral_body,
      [(py "topic", VStr (py "coral bleaching"))].
    repeat split; reflexivity. }
  split; [reflexivity|]. split; [|reflexivity].
  intros (_ & H). vm_compute in H. discriminate.
Qed.

(** The trace of an invocation, by cases. *)
Lemma run_cases (g : Globals) (w : World) (event : pyval) :
  snd (run g w event) = [] \/
  (exists topic bytes,
      config_present g = true /\
      fst (parse_request w event []) = Ok (inr topic) /\
      put_completed w = None /\
      run g w event = (Ok (success_response g (uuid_str (uuid4 w))),
                       completed_trace g w topic bytes)) \/
  (exists topic e tr1,
      config_present g = true /\
      fst (parse_request w event []) = Ok (inr topic) /\
      interrupted (steps tr1) /\
      writes is_put_item tr1 = [] /\
      (attempts is_put_item tr1 = [] \/
       put_completed w <> None /\
       attempts is_put_item tr1 =
       [put_item (DYNAMODB_TABLE_NAME g)
          (completed_item (uuid_str (uuid4 w)) topic
             (py "reports/" ++ uuid_str (uuid4 w) ++ py ".txt")
             (utcnow_completed w))]) /\
      (run g w event = (Raise (codec_error w FailureLog), tr1) \/
       run g w event =
       (match put_failed w with
        | None => Ok internal_error_response
        | Some e' => Raise e'
        end,
        tr1 ++ [(put_item (DYNAMODB_TABLE_NAME g)
                   (failed_item (uuid_str (uuid4 w)) topic (format_exc e)
                                (utcnow_failed w)),
                 match put_failed w with None => true | Some _ => false end)]))).
Proof.
  destruct (config_present g) eqn:Hc.
  2:{ left. destruct (run_config_absent g w event Hc) as (c & ->).
      reflexivity. }
  destruct (fst (parse_request w event [])) as [[r|topic]|e] eqn:Hp.
  - left. now rewrite (run_request_returns g w event r Hc Hp).
  - rewrite (run_valid_request g w event topic Hc Hp).
    destruct (loggable_value topic); [|now left].
    destruct (research_and_store_cases g w topic [])
      as [(report & bytes & Ha & He & Hs & Hr)
         | (e & tr1 & Hrs & Hint & Hw & Hatt)].
    + right. left. exists topic, bytes. repeat split; auto.
      now rewrite (research_and_store_completes g w topic [] report bytes).
    + right. right. exists topic, e, tr1. repeat split; auto.
      rewrite Hrs. cbn [app]. rewrite record_failure_spec.
      destruct (loggable (format_exc e)); [now right | now left].
  - left. now rewrite (run_request_raises g w event e Hc Hp).
Qed.

(** C5 (amended).  In every invocation at most one registry write returns.
    At most one is attempted, except when the COMPLETED [put_item] raised:
    the [except] clause then attempts the FAILED write for the same task id,
    after it.  A COMPLETED write that returned is never followed by another
    attempt. *)
Theorem registry_written_at_most_once
        (g : Globals) (w : World) (event : pyval) :
  (List.length (writes is_put_item (snd (run g w event))) <= 1)%nat /\
  (single_registry_attempt g w event \/
   put_completed w <> None /\
   exists topic e,
     attempts is_put_item (snd (run g w event)) =
     [put_item (DYNAMODB_TABLE_NAME g)
        (completed_item (uuid_str (uuid4 w)) topic
           (py "reports/" ++ uuid_str (uuid4 w) ++ py ".txt")
           (utcnow_completed w));
      put_item (DYNAMODB_TABLE_NAME g)
        (failed_item (uuid_str (uuid4 w)) topic (format_exc e)
           (utcnow_failed w))]).
Proof.
  unfold single_registry_attempt.
  destruct (run_cases g w event)
    as [-> | [(topic & bytes & _ & _ & _ & ->)
             | (topic & e & tr1 & _ & _ & _ & Hw & Hatt & [-> | ->])]].
  - cbn. split; [lia | left; lia].
  - cbn. split; [lia | left; lia].
  - cbn [snd]. rewrite Hw. split; [cbn; lia|]. left.
    destruct Hatt as [-> | [_ ->]]; cbn; lia.
  - cbn [snd]. rewrite writes_app, attempts_app, Hw.
    split.
    + destruct (put_failed w); cbn; lia.
    + destruct Hatt as [-> | [Hne ->]].
      * left. cbn. lia.
      * right. split; [exact Hne|]. exists topic, e. reflexivity.
Qed.

Lemma registry_written_at_most_once_witness :
  (List.length (writes is_put_item
             (snd (run full_config
                       (world_with (Ok (py "x")) None (Some throttled) None)
                       coral_event))) <= 1)%nat.
Proof.
  apply (registry_written_at_most_once full_config
           (world_with (Ok (py "x")) None (Some throttled) None) coral_event).
Defined.

(** C5 as stated fails: when the COMPLETED [put_item] raises, the FAILED
    one is attempted for the same task id in the same invocation. *)
Lemma completed_then_failed_attempted :
  ~ single_registry_attempt full_config
      (world_with (Ok (py "x")) None (Some throttled) None) coral_event /\
  map step_of
      (attempts is_put_item
         (snd (run full_config
                   (world_with (Ok (py "x")) None (Some throttled) None)
                   coral_event)))
  = [RegistryCompleted; RegistryFailed] /\
  map (fun c => match c with
                | put_item _ item => assoc (py "task_id") item
                | _ => None
                end)
      (attempts is_put_item
         (snd (run full_config
                   (world_with (Ok (py "x")) None (Some throttled) None)
                   coral_event)))
  = [Some (VStr (py "123e4567-e89b-42d3-a456-426614174000"));
     Some (VStr (py "123e4567-e89b-42d3-a456-426614174000"))].
Proof.
  split; [|split; vm_compute; reflexivity].
  unfold single_registry_attempt. vm_compute. intros H.
  repeat match goal with H : le _ _ |- _ => inversion H; clear H end.
Qed.

(* ================================================================== *)
(** ** The failure response (lines 127-130) *)

Lemma starts_with_prefix (s p r : pystr) :
  starts_with s (p ++ r) = true -> starts_with s p = true.
Proof.
  revert s. induction p as [|y p IH]; intros s H; [reflexivity|].
  destruct s as [|x s]; cbn in H |- *; [discriminate|].
  apply andb_true_iff in H as [Hxy H].
  rewrite Hxy. cbn. now apply IH.
Qed.

Lemma contains_prefix (s p r : pystr) :
  contains s (p ++ r) = true -> contains s p = true.
Proof.
  induction s as [|x s IH]; cbn [contains]; intros H.
  - rewrite orb_false_r in *. now apply starts_with_prefix with r.
  - apply orb_true_iff in H as [H|H].
    + apply starts_with_prefix in H. now rewrite H.
    + rewrite (IH H). apply orb_true_r.
Qed.

Lemma starts_with_In (s t : pystr) (c : N) :
  starts_with s t = true -> In c t -> In c s.
Proof.
  revert s. induction t as [|y t IH]; intros s H Hin; [destruct Hin|].
  destruct s as [|x s]; cbn in H; [discriminate|].
  apply andb_true_iff in H as [Hxy H]. apply N.eqb_eq in Hxy. subst y.
  destruct Hin as [->|Hin]; [now left | right; now apply IH].
Qed.

Lemma contains_In (s t : pystr) (c : N) :
  contains s t = true -> In c t -> In c s.
Proof.
  induction s as [|x s IH]; cbn [contains]; intros H Hin.
  - rewrite orb_false_r in H. now apply starts_with_In with t.
  - apply orb_true_iff in H as [H|H].
    + now apply starts_with_In with t.
    + right. now apply IH.
Qed.

(** Every task identifier has a hyphen; the generic body has none. *)
Lemma uuid_str_has_hyphen (u : N) : In 45 (uuid_str u).
Proof.
  unfold uuid_str. apply in_or_app. right. now left.
Qed.

Lemma generic_body_without_task_id (u : N) :
  contains (body internal_error_response) (uuid_str u) = false.
Proof.
  destruct (contains (body internal_error_response) (uuid_str u)) eqn:H;
    [|reflexivity].
  pose proof (contains_In _ _ 45 H (uuid_str_has_hyphen u)) as Hin.
  assert (Hno : existsb (N.eqb 45) (body internal_error_response) = false)
    by (vm_compute; reflexivity).
  assert (Hyes : existsb (N.eqb 45) (body internal_error_response) = true).
  { apply existsb_exists. exists 45. split; [exact Hin | apply N.eqb_refl]. }
  congruence.
Qed.

Lemma generic_body_without_traceback (e : raised) :
  contains (body internal_error_response) (format_exc e) = false.
Proof.
  destruct (contains (body internal_error_response) (format_exc e)) eqn:H;
    [|reflexivity].
  unfold format_exc in H. apply contains_prefix in H.
  vm_compute in H. discriminate.
Qed.

(** C6 (amended).  When the second [try] block raised and the caller
    receives a response, that response is 500 with the fixed body
    [{"error": "An internal server error occurred. Check CloudWatch logs for
    details."}]: the same for every exception, holding neither the text of
    the traceback nor the task identifier. *)
Theorem failure_response_is_generic
        (g : Globals) (w : World) (event topic : pyval) (e : raised)
        (r : response) :
  config_present g = true ->
  valid_request w event topic ->
  task_raises g w topic e ->
  fst (run g w event) = Ok r ->
  r = internal_error_response /\
  statusCode r = 500%Z /\
  ~ failure_response_names_task w r /\
  forall e', contains (body r) (format_exc e') = false.
Proof.
  intros Hc Hreq Hraise Hr.
  pose proof (parse_request_valid w event topic [] Hreq) as Hp.
  destruct (run_task_raised g w event topic e Hc)
    as (tr1 & _ & _ & _ & Hrun);
    [now rewrite Hp | exact Hraise |].
  rewrite Hrun in Hr.
  destruct (loggable_value topic); [|discriminate].
  destruct (loggable (format_exc e)); [|discriminate].
  cbn [fst] in Hr.
  destruct (put_failed w); [discriminate|]. injection Hr as <-.
  split; [reflexivity|]. split; [reflexivity|]. split.
  - unfold failure_response_names_task.
    rewrite generic_body_without_task_id. discriminate.
  - apply generic_body_without_traceback.
Qed.

Lemma failure_response_is_generic_witness :
  internal_error_response = internal_error_response /\
  statusCode internal_error_response = 500%Z /\
  ~ failure_response_names_task
      (world_with (Raise provider_error) None None None)
      internal_error_response /\
  forall e', contains (body internal_error_response) (format_exc e') = false.
Proof.
  apply (failure_response_is_generic full_config
           (world_with (Raise provider_error) None None None)
           coral_event (VStr (py "coral bleaching")) provider_error
           internal_error_response).
  - reflexivity.
  - exists [(py "body", VStr coral_body)], coral_body,
      [(py "topic", VStr (py "coral bleaching"))].
    repeat split; reflexivity.
  - reflexivity.
  - reflexivity.
Defined.

(** C6 as stated fails: the agent raises, the task identifier
    [123e4567-e89b-42d3-a456-426614174000] exists, and the 500 body the
    caller receives does not hold it. *)
Lemma failure_response_omits_task_id :
  task_raises full_config
    (world_with (Raise provider_error) None None None)
    (VStr (py "coral bleaching")) provider_error /\
  fst (run full_config (world_with (Raise provider_error) None None None)
           coral_event) = Ok internal_error_response /\
  uuid_str (uuid4 (world_with (Raise provider_error) None None None))
  = py "123e4567-e89b-42d3-a456-426614174000" /\
  ~ failure_response_names_task
      (world_with (Raise provider_error) None None None)
      internal_error_response.
Proof.
  split; [reflexivity|]. split; [reflexivity|]. split; [reflexivity|].
  unfold failure_response_names_task. vm_compute. discriminate.
Qed.

(* ================================================================== *)
(** ** The order of the steps *)

Lemma app_cons_inv {A : Type} (l l1 l2 : list A) (x : A) :
  l = l1 ++ x :: l2 ->
  nth_error l (List.length l1) = Some x /\
  l1 = firstn (List.length l1) l /\
  l2 = skipn (S (List.length l1)) l.
Proof.
  intros ->. induction l1 as [|a l1 IH]; cbn.
  - auto.
  - destruct IH as (Hn & H1 & H2). repeat split; auto. now f_equal.
Qed.

Ltac interrupted_shape :=
  first [ exact (Interrupted_by_call 0 _ eq_refl)
        | exact (Interrupted_by_call 1 _ eq_refl)
        | exact (Interrupted_by_call 2 _ eq_refl)
        | exact (Interrupted_by_call 3 _ eq_refl)
        | exact (Interrupted_by_call 4 _ eq_refl)
        | exact (Interrupted_by_call 5 _ eq_refl)
        | exact Interrupted_by_encoding ].

(** Splitting a list of steps that is known in full. *)
Ltac split_known H :=
  let Hn := fresh "Hn" in
  let H1 := fresh "H1" in
  let H2 := fresh "H2" in
  let n := fresh "n" in
  apply app_cons_inv in H as (Hn & H1 & H2);
  match type of Hn with
  | nth_error _ (List.length ?l1) = _ =>
      remember (List.length l1) as n;
      do 8 (try (destruct n as [|n];
                 [ cbn in Hn, H1, H2; try discriminate Hn;
                   try (injection Hn as <- <-); subst | ]));
      try (cbn in Hn; destruct n; discriminate Hn)
  end.

Lemma interrupted_cases (pre : list (step * bool)) :
  interrupted pre ->
  pre = [(ModelConstruction, false)] \/
  pre = [(ModelConstruction, true); (SearchConstruction, false)] \/
  pre = [(ModelConstruction, true); (SearchConstruction, true);
         (AgentConstruction, false)] \/
  pre = [(ModelConstruction, true); (SearchConstruction, true);
         (AgentConstruction, true); (AgentInvocation, false)] \/
  pre = [(ModelConstruction, true); (SearchConstruction, true);
         (AgentConstruction, true); (AgentInvocation, true)] \/
  pre = [(ModelConstruction, true); (SearchConstruction, true);
         (AgentConstruction, true); (AgentInvocation, true);
         (ReportStoreWrite, false)] \/
  pre = [(ModelConstruction, true); (SearchConstruction, true);
         (AgentConstruction, true); (AgentInvocation, true);
         (ReportStoreWrite, true); (RegistryCompleted, false)].
Proof.
  intros [k s Hk|].
  - do 6 (destruct k as [|k];
          [ injection Hk as <-; cbn; tauto | ]).
    cbn in Hk. destruct k; discriminate.
  - cbn. tauto.
Qed.

(** What the shape of a path says about order: no step occurs twice; a
    COMPLETED registry write, attempted or done, comes after a report-store
    write that returned; the FAILED registry write is the last step and what
    precedes it is a main path cut short by an exception. *)
Lemma handler_path_order (g : Globals) (out : result response * trace) :
  handler_path g out ->
  NoDup (map fst (steps (snd out))) /\
  (forall ok l1 l2,
      steps (snd out) = l1 ++ (RegistryCompleted, ok) :: l2 ->
      In (ReportStoreWrite, true) l1) /\
  (forall ok l1 l2,
      steps (snd out) = l1 ++ (RegistryFailed, ok) :: l2 ->
      l2 = [] /\ interrupted l1).
Proof.
  intros Hpath.
  destruct Hpath as [r _ _ | r _ _ | r tr _ Hsteps _
                    | r tr pre _ Hint Hsteps _ | e tr pre _ Hint Hsteps];
    cbn [snd]; try rewrite Hsteps.
  1-2: (cbn; split; [constructor | split; intros ok l1 l2 H;
                                   destruct l1; discriminate H]).
  - cbn. split; [repeat constructor; cbn; intuition discriminate|].
    split; intros ok l1 l2 H; split_known H; cbn; tauto.
  - apply interrupted_cases in Hint.
    repeat (destruct Hint as [-> | Hint]); try subst pre; cbn;
      (split; [repeat constructor; cbn; intuition discriminate|]);
      (split; intros ok l1 l2 H; split_known H; cbn;
       first [tauto | split; [reflexivity | interrupted_shape]]).
  - apply interrupted_cases in Hint.
    repeat (destruct Hint as [-> | Hint]); try subst pre; cbn;
      (split; [repeat constructor; cbn; intuition discriminate|]);
      (split; intros ok l1 l2 H; split_known H; cbn;
       first [tauto | split; [reflexivity | interrupted_shape]]).
Qed.

(** C8 (amended).  Every invocation in which request validation does not
    raise and the log lines can be written follows one of the paths of
    [handler_path]: the configuration check comes first (a missing value ends
    the invocation with 500 before anything else), request validation second
    (no outside call is made unless it produced a true topic), then agent
    construction and invocation, the report-store write and the COMPLETED
    registry write, in that order, then the 200 response.  No step occurs
    twice.  A COMPLETED registry write is only attempted after a report-store
    write that returned.  An exception after the task id exists leads to one
    FAILED registry write, which is the last step; the 500 response follows
    when that write returns, and when that write itself raises its exception
    leaves the handler and no response is given. *)
Theorem invocation_follows_handler_path
        (g : Globals) (w : World) (event : pyval) :
  validation_returns w event ->
  logs_writable g w event ->
  handler_path g (run g w event) /\
  (snd (run g w event) <> [] ->
   config_present g = true /\
   exists topic,
     fst (parse_request w event []) = Ok (inr topic) /\ truthy topic = true) /\
  NoDup (map fst (steps (snd (run g w event)))) /\
  (forall ok l1 l2,
      steps (snd (run g w event)) = l1 ++ (RegistryCompleted, ok) :: l2 ->
      In (ReportStoreWrite, true) l1) /\
  (forall ok l1 l2,
      steps (snd (run g w event)) = l1 ++ (RegistryFailed, ok) :: l2 ->
      l2 = [] /\ interrupted l1).
Proof.
  intros Hvalidation Hlogs.
  assert (Hpath : handler_path g (run g w event) /\
                  (snd (run g w event) <> [] ->
                   config_present g = true /\
                   exists topic,
                     fst (parse_request w event []) = Ok (inr topic) /\
                     truthy topic = true)).
  { destruct (config_present g) eqn:Hc.
    2:{ destruct (run_config_absent g w event Hc) as (c & ->).
        split; [now apply Path_config_error | intros H; now elim H]. }
    pose proof (parse_request_outcomes w event) as Hout.
    destruct (fst (parse_request w event [])) as [[r|topic]|e] eqn:Hp.
    - rewrite (run_request_returns g w event r Hc Hp).
      split; [now apply Path_request_rejected | intros H; now elim H].
    - split.
      2:{ intros _. split; [reflexivity|]. now exists topic. }
      destruct (Hlogs topic Hp) as [Hlog Htrace].
      rewrite (run_valid_request g w event topic Hc Hp), Hlog.
      destruct (research_and_store_cases g w topic [])
        as [(report & bytes & Ha & He & Hs & Hr)
           | (e & tr1 & Hrs & Hint & _ & _)].
      + rewrite (research_and_store_completes g w topic [] report bytes)
          by assumption.
        apply Path_completed; [exact Hc | reflexivity | reflexivity].
      + rewrite Hrs. cbn [app]. rewrite record_failure_spec.
        rewrite Htrace by (unfold task_raises; now rewrite Hrs).
        destruct (put_failed w) as [e'|].
        * apply Path_failure_unrecorded with (pre := steps tr1);
            [exact Hc | exact Hint | now rewrite steps_app].
        * apply Path_failed with (pre := steps tr1);
            [exact Hc | exact Hint | now rewrite steps_app | reflexivity].
    - now elim (Hvalidation e). }
  destruct Hpath as [Hpath Hvalid].
  split; [exact Hpath|]. split; [exact Hvalid|].
  exact (handler_path_order g (run g w event) Hpath).
Qed.

Lemma invocation_follows_handler_path_witness :
  handler_path full_config
    (run full_config (world_with (Ok (py "x")) None (Some throttled) None)
         coral_event).
Proof.
  apply (invocation_follows_handler_path full_config
           (world_with (Ok (py "x")) None (Some throttled) None) coral_event).
  - intros e H. vm_compute in H. discriminate.
  - intros topic H. vm_compute in H. injection H as <-.
    split; [reflexivity|].
    intros e He. vm_compute in He. injection He as <-. reflexivity.
Defined.

(** C8 as stated fails: the report is built, [put_object] raises, and the
    FAILED [put_item] raises as well: the failure edge is taken and ends
    without a response, the exception of the FAILED write leaving the
    handler. *)
Lemma unrecorded_failure_ends_without_response :
  validation_returns
    (world_with (Ok (py "x")) (Some access_denied) None (Some throttled))
    coral_event /\
  ~ spec_state_machine full_config
      (run full_config
           (world_with (Ok (py "x")) (Some access_denied) None (Some throttled))
           coral_event) /\
  fst (run full_config
           (world_with (Ok (py "x")) (Some access_denied) None (Some throttled))
           coral_event) = Raise throttled.
Proof.
  split; [intros e H; vm_compute in H; discriminate|].
  split; [|reflexivity].
  intros [_ [r H]]. vm_compute in H. discriminate.
Qed.

(* ================================================================== *)
(** ** Every outcome of an invocation *)

Lemma parse_request_responses (w : World) (event : pyval) (r : response) :
  fst (parse_request w event []) = Ok (inl r) ->
  r = missing_topic_response \/ r = invalid_json_response.
Proof.
  unfold parse_request, try_except, bind, lift, ret.
  destruct (py_get event (py "body") (VStr (py "{}"))) as [b|e]; cbn.
  - destruct (json_loads w b) as [b'|e]; cbn.
    + destruct (py_get b' (py "topic") VNone) as [t|e]; cbn.
      * destruct (truthy t); cbn; intros [= <-]. now left.
      * destruct (is_JSONDecodeError e); cbn; intros [= <-]. now right.
    + destruct (is_JSONDecodeError e); cbn; intros [= <-]. now right.
  - destruct (is_JSONDecodeError e); cbn; intros [= <-]. now right.
Qed.

(** The calls of the second [try] block are the expected ones, whether it
    runs to its end or raises. *)
Lemma research_and_store_calls
      (g : Globals) (w : World) (topic : pyval) :
  Forall (fun x => expected_call g w topic (fst x))
         (snd (research_and_store g w topic (uuid_str (uuid4 w)) [])).
Proof.
  unfold research_and_store, bind, lift, ret, extern, extern_val, encode_utf8.
  destruct (llm_init w) as [e|]; [repeat constructor|].
  destruct (search_init w) as [e|]; [repeat constructor|].
  destruct (agent_init w) as [e|]; [repeat constructor|].
  destruct (agent_answer w) as [report|e] eqn:Hr; [|repeat constructor].
  destruct (utf8_encode report) as [bytes|] eqn:Henc; [|repeat constructor].
  assert (Hobj : expected_call g w topic
                   (put_object (S3_BUCKET_NAME g)
                      (py "reports/" ++ uuid_str (uuid4 w) ++ py ".txt")
                      bytes (py "text/plain"))).
  { cbn. repeat split; try reflexivity. now exists report. }
  assert (Hrec : expected_call g w topic
                   (put_item (DYNAMODB_TABLE_NAME g)
                      (completed_item (uuid_str (uuid4 w)) topic
                         (py "reports/" ++ uuid_str (uuid4 w) ++ py ".txt")
                         (utcnow_completed w)))).
  { cbn. split; [reflexivity | now left]. }
  destruct (s3_put w) as [e|].
  { cbn [app snd]. repeat (constructor; [first [exact I | reflexivity | exact Hobj]|]).
    constructor. }
  destruct (put_completed w) as [e|];
    cbn [app snd];
    repeat (constructor;
            [first [exact I | reflexivity | exact Hobj | exact Hrec]|]);
    constructor.
Qed.

(** The complete list of what an invocation can do. *)
Lemma run_outcomes (g : Globals) (w : World) (event : pyval) :
  (config_present g = false /\
   exists c,
     run g w event = (Ok (error_response 500 (category_message c)), [])) \/
  (config_present g = true /\
   exists r,
     (r = missing_topic_response \/ r = invalid_json_response) /\
     fst (parse_request w event []) = Ok (inl r) /\
     run g w event = (Ok r, [])) \/
  (config_present g = true /\
   exists e,
     is_JSONDecodeError e = false /\
     fst (parse_request w event []) = Raise e /\
     run g w event = (Raise e, [])) \/
  (config_present g = true /\
   exists topic,
     fst (parse_request w event []) = Ok (inr topic) /\
     truthy topic = true /\
     loggable_value topic = false /\
     run g w event = (Raise (codec_error w StartLog), [])) \/
  (config_present g = true /\
   exists topic report bytes,
     fst (parse_request w event []) = Ok (inr topic) /\
     truthy topic = true /\
     agent_completes w report /\ utf8_encode report = Some bytes /\
     s3_put w = None /\ put_completed w = None /\
     run g w event = (Ok (success_response g (uuid_str (uuid4 w))),
                      completed_trace g w topic bytes)) \/
  (config_present g = true /\
   exists topic e tr1,
     fst (parse_request w event []) = Ok (inr topic) /\
     truthy topic = true /\
     research_and_store g w topic (uuid_str (uuid4 w)) [] = (Raise e, tr1) /\
     writes is_put_item tr1 = [] /\
     loggable (format_exc e) = false /\
     run g w event = (Raise (codec_error w FailureLog), tr1)) \/
  (config_present g = true /\
   exists topic e tr1,
     fst (parse_request w event []) = Ok (inr topic) /\
     truthy topic = true /\
     research_and_store g w topic (uuid_str (uuid4 w)) [] = (Raise e, tr1) /\
     writes is_put_item tr1 = [] /\
     run g w event =
     (match put_failed w with
      | None => Ok internal_error_response
      | Some e' => Raise e'
      end,
      tr1 ++ [(put_item (DYNAMODB_TABLE_NAME g)
                 (failed_item (uuid_str (uuid4 w)) topic (format_exc e)
                              (utcnow_failed w)),
               match put_failed w with None => true | Some _ => false end)])).
Proof.
  destruct (config_present g) eqn:Hc.
  2:{ left. split; [reflexivity|]. exact (run_config_absent g w event Hc). }
  right.
  pose proof (parse_request_outcomes w event) as Hout.
  destruct (fst (parse_request w event [])) as [[r|topic]|e] eqn:Hp.
  - left. split; [reflexivity|]. exists r. split.
    + now apply parse_request_responses with w event.
    + split; [reflexivity|]. exact (run_request_returns g w event r Hc Hp).
  - right. right.
    rewrite (run_valid_request g w event topic Hc Hp).
    destruct (loggable_value topic) eqn:Hlog.
    2:{ left. split; [reflexivity|]. exists topic. repeat split; auto. }
    right.
    destruct (research_and_store_cases g w topic [])
      as [(report & bytes & Ha & He & Hs & Hr)
         | (e & tr1 & Hrs & _ & Hw & _)].
    + left. split; [reflexivity|]. exists topic, report, bytes.
      repeat split; try assumption; try apply Ha.
      now rewrite (research_and_store_completes g w topic [] report bytes).
    + right. cbn [app] in Hrs. rewrite Hrs, record_failure_spec.
      destruct (loggable (format_exc e)) eqn:Htrace.
      * right. split; [reflexivity|]. exists topic, e, tr1.
        repeat split; assumption.
      * left. split; [reflexivity|]. exists topic, e, tr1.
        repeat split; assumption.
  - right. left. split; [reflexivity|]. exists e. repeat split; auto.
    exact (run_request_raises g w event e Hc Hp).
Qed.

(* ================================================================== *)
(** ** What a response tells the caller *)

(** X1.  The responses of the handler are five fixed shapes: one of the
    three configuration errors, "Missing topic", "Invalid JSON", the generic
    internal error, or the success body of this invocation's task; so the
    status code is always 200, 400 or 500. *)
Theorem responses_enumerated
        (g : Globals) (w : World) (event : pyval) (r : response) :
  fst (run g w event) = Ok r ->
  ((exists c, r = error_response 500 (category_message c)) \/
   r = missing_topic_response \/
   r = invalid_json_response \/
   r = internal_error_response \/
   r = success_response g (uuid_str (uuid4 w))) /\
  (statusCode r = 200%Z \/ statusCode r = 400%Z \/ statusCode r = 500%Z).
Proof.
  intros Hr.
  destruct (run_outcomes g w event)
    as [(_ & c & Hrun)
       | [(_ & r' & Hr' & _ & Hrun)
         | [(_ & e & _ & _ & Hrun)
           | [(_ & topic & _ & _ & _ & Hrun)
             | [(_ & topic & report & bytes & _ & _ & _ & _ & _ & _ & Hrun)
               | [(_ & topic & e & tr1 & _ & _ & _ & _ & _ & Hrun)
                 | (_ & topic & e & tr1 & _ & _ & _ & _ & Hrun)]]]]]];
    rewrite Hrun in Hr; cbn [fst] in Hr.
  - injection Hr as <-. split; [left; now exists c | now right; right].
  - injection Hr as <-. destruct Hr' as [-> | ->];
      (split; [tauto | right; left; reflexivity]).
  - discriminate.
  - discriminate.
  - injection Hr as <-. split; [tauto | left; reflexivity].
  - discriminate.
  - destruct (put_failed w); [discriminate|]. injection Hr as <-.
    split; [tauto | right; right; reflexivity].
Qed.

Lemma responses_enumerated_witness :
  statusCode (success_response full_config (uuid_str (uuid4 calm_world)))
  = 200%Z \/
  statusCode (success_response full_config (uuid_str (uuid4 calm_world)))
  = 400%Z \/
  statusCode (success_response full_config (uuid_str (uuid4 calm_world)))
  = 500%Z.
Proof.
  apply (responses_enumerated full_config calm_world coral_event).
  reflexivity.
Defined.

(** X2.  A 200 response is only returned after the work was done: the
    request carried a true topic, the agent was built and returned its
    report, exactly one object holding the encoded report and exactly one
    COMPLETED record were written, every outside call returned, and no FAILED
    write was attempted. *)
Theorem ok_response_means_delivered
        (g : Globals) (w : World) (event : pyval) (r : response) :
  fst (run g w event) = Ok r ->
  statusCode r = 200%Z ->
  exists topic report,
    fst (parse_request w event []) = Ok (inr topic) /\
    truthy topic = true /\
    agent_completes w report /\
    report_delivered g w event topic report /\
    forallb snd (snd (run g w event)) = true /\
    List.length (attempts is_put_item (snd (run g w event))) = 1%nat.
Proof.
  intros Hr Hcode.
  destruct (run_outcomes g w event)
    as [(_ & c & Hrun)
       | [(_ & r' & Hr' & _ & Hrun)
         | [(_ & e & _ & _ & Hrun)
           | [(_ & topic & _ & _ & _ & Hrun)
             | [(_ & topic & report & bytes & Hp & Ht & Ha & He & _ & _ & Hrun)
               | [(_ & topic & e & tr1 & _ & _ & _ & _ & _ & Hrun)
                 | (_ & topic & e & tr1 & _ & _ & _ & _ & Hrun)]]]]]];
    rewrite Hrun in Hr |- *; cbn [fst snd] in Hr |- *.
  - injection Hr as <-. discriminate.
  - injection Hr as <-. destruct Hr' as [-> | ->]; discriminate.
  - discriminate.
  - discriminate.
  - exists topic, report.
    split; [exact Hp|]. split; [exact Ht|]. split; [exact Ha|].
    split; [|split; reflexivity].
    unfold report_delivered. rewrite Hrun. cbn [fst snd].
    split; [exists bytes; split; [exact He | reflexivity] |].
    split; reflexivity.
  - discriminate.
  - destruct (put_failed w); [discriminate|]. injection Hr as <-.
    discriminate.
Qed.

Lemma ok_response_means_delivered_witness :
  exists topic report,
    fst (parse_request calm_world coral_event []) = Ok (inr topic) /\
    truthy topic = true /\
    agent_completes calm_world report /\
    report_delivered full_config calm_world coral_event topic report /\
    forallb snd (snd (run full_config calm_world coral_event)) = true /\
    List.length
      (attempts is_put_item (snd (run full_config calm_world coral_event)))
    = 1%nat.
Proof.
  apply (ok_response_means_delivered full_config calm_world coral_event
           (success_response full_config (uuid_str (uuid4 calm_world))));
    reflexivity.
Defined.

Lemma config_error_is_not_internal_error (c : category) :
  error_response 500 (category_message c) <> internal_error_response.
Proof.
  destruct c; intros H; vm_compute in H; discriminate.
Qed.

(** X3.  The generic 500 response is only returned after a FAILED record
    for this task was written: the second [try] block raised some [e], the
    FAILED [put_item] returned, it is the last call of the invocation, and it
    is the only registry write that returned. *)
Theorem internal_error_means_failure_recorded
        (g : Globals) (w : World) (event : pyval) :
  fst (run g w event) = Ok internal_error_response ->
  exists topic e tr1,
    fst (parse_request w event []) = Ok (inr topic) /\
    task_raises g w topic e /\
    snd (run g w event) =
    tr1 ++ [(put_item (DYNAMODB_TABLE_NAME g)
               (failed_item (uuid_str (uuid4 w)) topic (format_exc e)
                            (utcnow_failed w)), true)] /\
    writes is_put_item (snd (run g w event)) =
    [put_item (DYNAMODB_TABLE_NAME g)
       (failed_item (uuid_str (uuid4 w)) topic (format_exc e)
                    (utcnow_failed w))].
Proof.
  intros Hr.
  destruct (run_outcomes g w event)
    as [(_ & c & Hrun)
       | [(_ & r' & Hr' & _ & Hrun)
         | [(_ & e & _ & _ & Hrun)
           | [(_ & topic & _ & _ & _ & Hrun)
             | [(_ & topic & report & bytes & _ & _ & _ & _ & _ & _ & Hrun)
               | [(_ & topic & e & tr1 & _ & _ & _ & _ & _ & Hrun)
                 | (_ & topic & e & tr1 & Hp & _ & Hrs & Hw & Hrun)]]]]]];
    rewrite Hrun in Hr |- *; cbn [fst snd] in Hr |- *.
  - exfalso. apply (config_error_is_not_internal_error c). congruence.
  - assert (Hcode : statusCode r' = 500%Z) by (now replace r' with
      internal_error_response by congruence).
    destruct Hr' as [-> | ->]; discriminate.
  - discriminate.
  - discriminate.
  - assert (Hcode : statusCode (success_response g (uuid_str (uuid4 w)))
                    = 500%Z)
      by (now replace (success_response g (uuid_str (uuid4 w))) with
            internal_error_response by congruence).
    discriminate.
  - discriminate.
  - destruct (put_failed w); [discriminate|].
    exists topic, e, tr1. repeat split; try assumption.
    + unfold task_raises. now rewrite Hrs.
    + now rewrite writes_app, Hw.
Qed.

Lemma internal_error_means_failure_recorded_witness :
  exists topic e tr1,
    fst (parse_request (world_with (Raise provider_error) None None None)
                       coral_event []) = Ok (inr topic) /\
    task_raises full_config (world_with (Raise provider_error) None None None)
                topic e /\
    snd (run full_config (world_with (Raise provider_error) None None None)
             coral_event) =
    tr1 ++ [(put_item (DYNAMODB_TABLE_NAME full_config)
               (failed_item
                  (uuid_str
                     (uuid4 (world_with (Raise provider_error) None None None)))
                  topic (format_exc e)
                  (utcnow_failed
                     (world_with (Raise provider_error) None None None))),
             true)] /\
    writes is_put_item
      (snd (run full_config (world_with (Raise provider_error) None None None)
                coral_event)) =
    [put_item (DYNAMODB_TABLE_NAME full_config)
       (failed_item
          (uuid_str
             (uuid4 (world_with (Raise provider_error) None None None)))
          topic (format_exc e)
          (utcnow_failed
             (world_with (Raise provider_error) None None None)))].
Proof.
  apply (internal_error_means_failure_recorded full_config
           (world_with (Raise provider_error) None None None) coral_event).
  reflexivity.
Defined.

(** X4.  A 400 response means that nothing outside the process was
    touched: the configuration was complete, the request was turned down by
    lines 32-44, and no outside call was made. *)
Theorem bad_request_response_means_no_call
        (g : Globals) (w : World) (event : pyval) (r : response) :
  fst (run g w event) = Ok r ->
  statusCode r = 400%Z ->
  config_present g = true /\
  fst (parse_request w event []) = Ok (inl r) /\
  snd (run g w event) = [].
Proof.
  intros Hr Hcode.
  destruct (run_outcomes g w event)
    as [(_ & c & Hrun)
       | [(Hc & r' & _ & Hp & Hrun)
         | [(_ & e & _ & _ & Hrun)
           | [(_ & topic & _ & _ & _ & Hrun)
             | [(_ & topic & report & bytes & _ & _ & _ & _ & _ & _ & Hrun)
               | [(_ & topic & e & tr1 & _ & _ & _ & _ & _ & Hrun)
                 | (_ & topic & e & tr1 & _ & _ & _ & _ & Hrun)]]]]]];
    rewrite Hrun in Hr |- *; cbn [fst snd] in Hr |- *.
  - injection Hr as <-. discriminate.
  - injection Hr as <-. repeat split; assumption.
  - discriminate.
  - discriminate.
  - injection Hr as <-. discriminate.
  - discriminate.
  - destruct (put_failed w); [discriminate|]. injection Hr as <-.
    discriminate.
Qed.

Lemma bad_request_response_means_no_call_witness :
  config_present full_config = true /\
  fst (parse_request calm_world (VDict []) []) = Ok (inl missing_topic_response) /\
  snd (run full_config calm_world (VDict [])) = [].
Proof.
  apply (bad_request_response_means_no_call full_config calm_world (VDict [])
           missing_topic_response); reflexivity.
Defined.

(* ================================================================== *)
(** ** Failures after the agent has answered *)

Lemma utf8_encode_undefined (s : pystr) :
  forallb scalar_value s = false -> utf8_encode s = None.
Proof.
  induction s as [|c s IH]; cbn [forallb utf8_encode]; [discriminate|].
  intros H. apply andb_false_iff in H as [Hc | Hs].
  - destruct (utf8_encode_char c) as [b|] eqn:Hb; [|reflexivity].
    assert (Hdef : utf8_encode_char c <> None) by congruence.
    apply utf8_encode_char_defined in Hdef. congruence.
  - rewrite (IH Hs). now destruct (utf8_encode_char c).
Qed.

(** X5.  A report can be stored and still be recorded as FAILED: when
    [put_object] returned and the COMPLETED [put_item] raises [e] (and the
    log lines of the topic and of the traceback can be written), the object
    stays written under the key of the task, while the only record written is
    the FAILED one, which holds the traceback of [e] and no report key; the
    response is the generic 500. *)
Theorem stored_report_recorded_as_failed
        (g : Globals) (w : World) (event topic : pyval)
        (report : pystr) (bytes : pybytes) (e : raised) :
  config_present g = true ->
  valid_request w event topic ->
  loggable_value topic = true ->
  agent_completes w report ->
  utf8_encode report = Some bytes ->
  s3_put w = None ->
  put_completed w = Some e ->
  loggable (format_exc e) = true ->
  put_failed w = None ->
  fst (run g w event) = Ok internal_error_response /\
  writes is_put_object (snd (run g w event)) =
  [put_object (S3_BUCKET_NAME g) (report_key (uuid_str (uuid4 w))) bytes
              (py "text/plain")] /\
  writes is_put_item (snd (run g w event)) =
  [put_item (DYNAMODB_TABLE_NAME g)
     (failed_item (uuid_str (uuid4 w)) topic (format_exc e) (utcnow_failed w))] /\
  assoc (py "s3_report_key")
        (failed_item (uuid_str (uuid4 w)) topic (format_exc e) (utcnow_failed w))
  = None.
Proof.
  intros Hc Hreq Hlog (Hl & Hs & Ha & Hr) Henc Hput Hrec Htrace Hfail.
  pose proof (parse_request_valid w event topic [] Hreq) as Hp.
  rewrite (run_valid_request g w event topic Hc) by (now rewrite Hp).
  rewrite Hlog.
  unfold research_and_store, record_failure, print_log, bind, lift, ret,
    extern, extern_val, encode_utf8.
  rewrite Hl, Hs, Ha, Hr, Henc, Hput, Hrec, Htrace, Hfail.
  repeat split; reflexivity.
Qed.

Lemma stored_report_recorded_as_failed_witness :
  fst (run full_config (world_with (Ok (py "x")) None (Some throttled) None)
           coral_event) = Ok internal_error_response /\
  List.length
    (writes is_put_object
       (snd (run full_config
                 (world_with (Ok (py "x")) None (Some throttled) None)
                 coral_event))) = 1%nat.
Proof.
  destruct (stored_report_recorded_as_failed full_config
              (world_with (Ok (py "x")) None (Some throttled) None)
              coral_event (VStr (py "coral bleaching")) (py "x") (py "x")
              throttled) as (Hr & Hobj & _); try reflexivity.
  - exists [(py "body", VStr coral_body)], coral_body,
      [(py "topic", VStr (py "coral bleaching"))].
    repeat split; reflexivity.
  - repeat split; reflexivity.
  - split; [exact Hr | now rewrite Hobj].
Defined.

(** X6.  A report that holds a surrogate code point cannot be encoded:
    line 84 raises [UnicodeEncodeError] and [put_object] is not even
    attempted; when the log lines can be written and the FAILED write
    returns, the failure is recorded with the traceback of that error and the
    response is the generic 500. *)
Theorem unencodable_report_is_not_stored
        (g : Globals) (w : World) (event topic : pyval) (report : pystr) :
  config_present g = true ->
  valid_request w event topic ->
  loggable_value topic = true ->
  agent_completes w report ->
  forallb scalar_value report = false ->
  loggable (format_exc (codec_error w ReportEncoding)) = true ->
  put_failed w = None ->
  task_raises g w topic (codec_error w ReportEncoding) /\
  exc_type (codec_error w ReportEncoding) = UnicodeEncodeError /\
  fst (run g w event) = Ok internal_error_response /\
  attempts is_put_object (snd (run g w event)) = [] /\
  writes is_put_item (snd (run g w event)) =
  [put_item (DYNAMODB_TABLE_NAME g)
     (failed_item (uuid_str (uuid4 w)) topic
                  (format_exc (codec_error w ReportEncoding))
                  (utcnow_failed w))].
Proof.
  intros Hc Hreq Hlog (Hl & Hs & Ha & Hr) Hbad Htrace Hfail.
  pose proof (utf8_encode_undefined report Hbad) as Henc.
  pose proof (parse_request_valid w event topic [] Hreq) as Hp.
  rewrite (run_valid_request g w event topic Hc) by (now rewrite Hp).
  rewrite Hlog.
  unfold task_raises, research_and_store, record_failure, print_log, bind,
    lift, ret, extern, extern_val, encode_utf8.
  rewrite Hl, Hs, Ha, Hr, Henc. cbn [fst snd].
  rewrite Htrace, Hfail.
  repeat split; reflexivity.
Qed.

Lemma unencodable_report_is_not_stored_witness :
  attempts is_put_object
    (snd (run full_config (world_with (Ok broken_report) None None None)
              coral_event)) = [].
Proof.
  apply (unencodable_report_is_not_stored full_config
           (world_with (Ok broken_report) None None None)
           coral_event (VStr (py "coral bleaching")) broken_report);
    try reflexivity.
  - exists [(py "body", VStr coral_body)], coral_body,
      [(py "topic", VStr (py "coral bleaching"))].
    repeat split; reflexivity.
  - repeat split; reflexivity.
Defined.

(** X7.  When the second [try] block raised [e], the log lines could be
    written and the FAILED [put_item] raises [e'], the handler raises [e'],
    not the exception [e] it was recording: [e] only survives as the
    traceback inside the item of the attempt that raised, which is the last
    call; no registry write returned and no response is given. *)
Theorem failed_write_exception_replaces_original
        (g : Globals) (w : World) (event topic : pyval) (e e' : raised) :
  config_present g = true ->
  valid_request w event topic ->
  loggable_value topic = true ->
  task_raises g w topic e ->
  loggable (format_exc e) = true ->
  put_failed w = Some e' ->
  fst (run g w event) = Raise e' /\
  writes is_put_item (snd (run g w event)) = [] /\
  exists tr1,
    snd (run g w event) =
    tr1 ++ [(put_item (DYNAMODB_TABLE_NAME g)
               (failed_item (uuid_str (uuid4 w)) topic (format_exc e)
                            (utcnow_failed w)), false)].
Proof.
  intros Hc Hreq Hlog Hraise Htrace Hfail.
  pose proof (parse_request_valid w event topic [] Hreq) as Hp.
  destruct (run_task_raised g w event topic e Hc)
    as (tr1 & _ & _ & Hw & Hrun);
    [now rewrite Hp | exact Hraise |].
  rewrite Hlog, Htrace, Hfail in Hrun. rewrite Hrun. cbn [fst snd].
  split; [reflexivity|]. split.
  - now rewrite writes_app, Hw.
  - now exists tr1.
Qed.

Lemma failed_write_exception_replaces_original_witness :
  fst (run full_config
           (world_with (Raise provider_error) None None (Some throttled))
           coral_event) = Raise throttled.
Proof.
  apply (failed_write_exception_replaces_original full_config
           (world_with (Raise provider_error) None None (Some throttled))
           coral_event (VStr (py "coral bleaching")) provider_error throttled);
    try reflexivity.
  exists [(py "body", VStr coral_body)], coral_body,
    [(py "topic", VStr (py "coral bleaching"))].
  repeat split; reflexivity.
Defined.

(* ================================================================== *)
(** ** Requests that make the handler raise *)

(** X8.  With the configuration present, an event that is not a dict, or a
    body that decodes to anything but a dict (a list, a string, a number,
    [null]), makes the [.get] of line 33 or 34 raise [AttributeError]; the
    [except json.JSONDecodeError] clause does not catch it, so the handler
    raises without a response and without any outside call. *)
Theorem request_without_get_raises
        (g : Globals) (w : World) (event : pyval) :
  config_present g = true ->
  ((forall d, event <> VDict d) \/
   exists ev s v,
     event = VDict ev /\ assoc (py "body") ev = Some (VStr s) /\
     json_decode w s = Ok v /\ forall d, v <> VDict d) ->
  run g w event = (Raise no_attribute_get, []) /\
  exc_type no_attribute_get = AttributeError.
Proof.
  intros Hc Hshape. split; [|reflexivity].
  apply run_request_raises; [exact Hc|].
  unfold parse_request, try_except, bind, lift, ret.
  destruct Hshape as [Hev | (ev & s & v & -> & Hbody & Hdec & Hv)].
  - destruct event; try reflexivity. exfalso. now apply (Hev d).
  - unfold py_get at 1. rewrite Hbody. cbn [json_loads]. rewrite Hdec.
    destruct v; try reflexivity. exfalso. now apply (Hv d).
Qed.

Lemma request_without_get_raises_witness :
  run full_config calm_world (VList []) = (Raise no_attribute_get, []) /\
  run full_config (world_decoding decode_more calm_world)
      (VDict [(py "body", VStr (py "[]"))]) = (Raise no_attribute_get, []).
Proof.
  split.
  - apply (request_without_get_raises full_config calm_world (VList []));
      [reflexivity|]. left. intros d. discriminate.
  - apply (request_without_get_raises full_config
             (world_decoding decode_more calm_world)
             (VDict [(py "body", VStr (py "[]"))])); [reflexivity|].
    right. exists [(py "body", VStr (py "[]"))], (py "[]"), (VList []).
    repeat split; try reflexivity. intros d. discriminate.
Defined.

(** X9.  Only [JSONDecodeError] is turned into "Invalid JSON": any other
    exception the decoder raises on the body leaves the handler unchanged,
    without a response and without any outside call. *)
Theorem other_decoder_exception_propagates
        (g : Globals) (w : World) (ev : list (pystr * pyval)) (s : pystr)
        (e : raised) :
  config_present g = true ->
  assoc (py "body") ev = Some (VStr s) ->
  json_decode w s = Raise e ->
  is_JSONDecodeError e = false ->
  run g w (VDict ev) = (Raise e, []).
Proof.
  intros Hc Hbody Hdec He.
  apply run_request_raises; [exact Hc|].
  unfold parse_request, try_except, bind, lift, ret, py_get, json_loads.
  rewrite Hbody, Hdec, He. reflexivity.
Qed.

Lemma other_decoder_exception_propagates_witness :
  run full_config (world_decoding decode_more calm_world)
      (VDict [(py "body", VStr huge_number)])
  = (Raise digits_limit_error, []).
Proof.
  apply (other_decoder_exception_propagates full_config
           (world_decoding decode_more calm_world)
           [(py "body", VStr huge_number)] huge_number digits_limit_error);
    vm_compute; reflexivity.
Defined.

(* ================================================================== *)
(** ** What the handler sends out *)

(** Every outside call of an invocation is an expected call for the topic
    that request validation produced. *)
Lemma calls_are_expected
      (g : Globals) (w : World) (event : pyval) (x : call * bool) :
  In x (snd (run g w event)) ->
  exists topic,
    config_present g = true /\
    fst (parse_request w event []) = Ok (inr topic) /\
    truthy topic = true /\
    expected_call g w topic (fst x).
Proof.
  intros Hin.
  destruct (run_outcomes g w event)
    as [(_ & c & Hrun)
       | [(_ & r' & _ & _ & Hrun)
         | [(_ & e & _ & _ & Hrun)
           | [(_ & topic & _ & _ & _ & Hrun)
             | [(Hc & topic & report & bytes & Hp & Ht & Ha & He & Hs & Hr & Hrun)
               | [(Hc & topic & e & tr1 & Hp & Ht & Hrs & _ & _ & Hrun)
                 | (Hc & topic & e & tr1 & Hp & Ht & Hrs & _ & Hrun)]]]]]];
    rewrite Hrun in Hin; cbn [snd] in Hin; try (now destruct Hin).
  - exists topic. repeat split; try assumption.
    pose proof (research_and_store_calls g w topic) as Hcalls.
    rewrite (research_and_store_completes g w topic [] report bytes)
      in Hcalls by assumption.
    cbn [snd app] in Hcalls.
    rewrite Forall_forall in Hcalls. now apply Hcalls.
  - exists topic. repeat split; try assumption.
    pose proof (research_and_store_calls g w topic) as Hcalls.
    rewrite Hrs in Hcalls. cbn [snd] in Hcalls.
    rewrite Forall_forall in Hcalls. now apply Hcalls.
  - exists topic. repeat split; try assumption.
    apply in_app_or in Hin as [Hin | [<- | []]].
    + pose proof (research_and_store_calls g w topic) as Hcalls.
      rewrite Hrs in Hcalls. cbn [snd] in Hcalls.
      rewrite Forall_forall in Hcalls. now apply Hcalls.
    + cbn. split; [reflexivity|]. right. now exists e.
Qed.

(** X10.  Whatever the invocation, an object the handler puts (or tries to
    put) into the store goes to the configured bucket, under the key
    [reports/<task_id>.txt] of this invocation, as [text/plain], and its body
    is the UTF-8 encoding of what the agent returned. *)
Theorem stored_object_is_the_report
        (g : Globals) (w : World) (event : pyval)
        (bucket : option pystr) (key : pystr) (bytes : pybytes)
        (content_type : pystr) (ok : bool) :
  In (put_object bucket key bytes content_type, ok) (snd (run g w event)) ->
  bucket = S3_BUCKET_NAME g /\
  py_not bucket = false /\
  key = report_key (uuid_str (uuid4 w)) /\
  content_type = py "text/plain" /\
  exists report,
    agent_answer w = Ok report /\ utf8_encode report = Some bytes.
Proof.
  intros Hin.
  destruct (calls_are_expected g w event _ Hin)
    as (topic & Hc & _ & _ & Hexp).
  cbn in Hexp. destruct Hexp as (-> & -> & -> & Hreport).
  apply config_present_spec in Hc as (_ & _ & Hb & _).
  repeat split; assumption.
Qed.

Lemma stored_object_is_the_report_witness :
  exists report,
    agent_answer calm_world = Ok report /\
    utf8_encode report = Some (py "Coral bleaching report...").
Proof.
  apply (stored_object_is_the_report full_config calm_world coral_event
           (Some (py "reports-bucket"))
           (py "reports/123e4567-e89b-42d3-a456-426614174000.txt")
           (py "Coral bleaching report...") (py "text/plain") true).
  vm_compute. tauto.
Defined.

(** X11.  Whatever the invocation, an item the handler puts (or tries to
    put) into the registry goes to the configured table and holds the task id
    of this invocation, the topic that request validation produced, and a
    completion time; it is either a COMPLETED item with the report key and no
    error message, or a FAILED item with a traceback and no report key. *)
Theorem registry_item_shape
        (g : Globals) (w : World) (event : pyval)
        (table : option pystr) (item : list (pystr * pyval)) (ok : bool) :
  In (put_item table item, ok) (snd (run g w event)) ->
  table = DYNAMODB_TABLE_NAME g /\
  py_not table = false /\
  assoc (py "task_id") item = Some (VStr (uuid_str (uuid4 w))) /\
  (exists topic,
      fst (parse_request w event []) = Ok (inr topic) /\
      assoc (py "research_topic") item = Some topic) /\
  (exists stamp, assoc (py "completed_at") item = Some (VStr stamp)) /\
  ((item_status item = Some (VStr (py "COMPLETED")) /\
    assoc (py "s3_report_key") item
    = Some (VStr (report_key (uuid_str (uuid4 w)))) /\
    assoc (py "error_message") item = None) \/
   (item_status item = Some (VStr (py "FAILED")) /\
    assoc (py "s3_report_key") item = None /\
    exists e, assoc (py "error_message") item = Some (VStr (format_exc e)))).
Proof.
  intros Hin.
  destruct (calls_are_expected g w event _ Hin)
    as (topic & Hc & Hp & _ & Hexp).
  cbn in Hexp. destruct Hexp as (-> & Hitem).
  apply config_present_spec in Hc as (_ & _ & _ & Ht).
  split; [reflexivity|]. split; [exact Ht|].
  destruct Hitem as [-> | (e & ->)].
  - split; [reflexivity|]. split; [now exists topic|].
    split; [now eexists|]. left. repeat split.
  - split; [reflexivity|]. split; [now exists topic|].
    split; [now eexists|]. right. repeat split. now exists e.
Qed.

Lemma registry_item_shape_witness :
  assoc (py "task_id")
        (failed_item (py "123e4567-e89b-42d3-a456-426614174000")
                     (VStr (py "coral bleaching"))
                     (format_exc provider_error) noon)
  = Some (VStr (uuid_str
                  (uuid4 (world_with (Raise provider_error) None None None)))).
Proof.
  apply (registry_item_shape full_config
           (world_with (Raise provider_error) None None None) coral_event
           (Some (py "research-tasks"))
           (failed_item (py "123e4567-e89b-42d3-a456-426614174000")
                        (VStr (py "coral bleaching"))
                        (format_exc provider_error) noon)
           true).
  vm_compute. tauto.
Defined.

(** X12.  The agent is only ever run with the complete configuration and
    on the topic that request validation produced, which is a true value. *)
Theorem agent_runs_on_validated_topic
        (g : Globals) (w : World) (event topic : pyval) (ok : bool) :
  In (agent_run topic, ok) (snd (run g w event)) ->
  config_present g = true /\
  fst (parse_request w event []) = Ok (inr topic) /\
  truthy topic = true.
Proof.
  intros Hin.
  destruct (calls_are_expected g w event _ Hin)
    as (topic' & Hc & Hp & Ht & Hexp).
  cbn in Hexp. subst topic'. repeat split; assumption.
Qed.

Lemma agent_runs_on_validated_topic_witness :
  config_present full_config = true /\
  fst (parse_request calm_world coral_event [])
  = Ok (inr (VStr (py "coral bleaching"))) /\
  truthy (VStr (py "coral bleaching")) = true.
Proof.
  apply (agent_runs_on_validated_topic full_config calm_world coral_event
           (VStr (py "coral bleaching")) true).
  vm_compute. tauto.
Defined.

(** X13.  The type of the topic is not checked: any true JSON value (a
    number, a list, an object) passes request validation and, once the start
    line is logged and the agent is built, [agent.run] is called on the
    prompt formatted from that value. *)
Theorem topic_type_is_not_checked
        (g : Globals) (w : World) (event topic : pyval) :
  config_present g = true ->
  valid_request w event topic ->
  loggable_value topic = true ->
  llm_init w = None -> search_init w = None -> agent_init w = None ->
  exists ok, In (agent_run topic, ok) (snd (run g w event)).
Proof.
  intros Hc Hreq Hlog Hl Hs Ha.
  pose proof (parse_request_valid w event topic [] Hreq) as Hp.
  rewrite (run_valid_request g w event topic Hc) by (now rewrite Hp).
  rewrite Hlog.
  unfold research_and_store, record_failure, print_log, bind, lift, ret,
    extern, extern_val, encode_utf8.
  rewrite Hl, Hs, Ha.
  destruct (agent_answer w) as [report|e].
  - exists true.
    destruct (utf8_encode report);
      [destruct (s3_put w) as [e1|];
       [destruct (loggable (format_exc e1))
       |destruct (put_completed w) as [e2|];
        [destruct (loggable (format_exc e2))|]]
      |destruct (loggable (format_exc (codec_error w ReportEncoding)))];
      try destruct (put_failed w); cbn; tauto.
  - exists false.
    destruct (loggable (format_exc e)); try destruct (put_failed w);
      cbn; tauto.
Qed.

Lemma topic_type_is_not_checked_witness :
  exists ok,
    In (agent_run (VInt 7), ok)
       (snd (run full_config (world_decoding decode_more calm_world)
                 (VDict [(py "body", VStr number_body)]))).
Proof.
  apply (topic_type_is_not_checked full_config
           (world_decoding decode_more calm_world)
           (VDict [(py "body", VStr number_body)]) (VInt 7));
    try reflexivity.
  exists [(py "body", VStr number_body)], number_body, [(py "topic", VInt 7)].
  repeat split; reflexivity.
Defined.

(* ================================================================== *)
(** ** Task identifiers, keys and timestamps do not collide *)

Lemma digit_char_inj (d1 d2 : N) :
  d1 < 16 -> d2 < 16 -> digit_char d1 = digit_char d2 -> d1 = d2.
Proof.
  unfold digit_char. intros H1 H2.
  destruct (N.ltb_spec d1 10), (N.ltb_spec d2 10); lia.
Qed.

Lemma fixed_digits_inj (base : N) (width : nat) (n m : N) :
  2 <= base <= 16 ->
  n < base ^ N.of_nat width -> m < base ^ N.of_nat width ->
  fixed_digits base width n = fixed_digits base width m -> n = m.
Proof.
  intros Hb. revert n m.
  induction width as [|width IH]; intros n m Hn Hm H.
  - cbn in Hn, Hm. lia.
  - rewrite Nat2N.inj_succ, N.pow_succ_r' in Hn, Hm.
    cbn [fixed_digits] in H. apply app_inj_tail in H as [Hhigh Hlow].
    assert (Hq : n / base = m / base).
    { apply IH; [apply N.Div0.div_lt_upper_bound; lia
                | apply N.Div0.div_lt_upper_bound; lia | exact Hhigh]. }
    assert (Hr : n mod base = m mod base).
    { apply digit_char_inj; [| | exact Hlow].
      - assert (n mod base < base) by (apply N.mod_lt; lia). lia.
      - assert (m mod base < base) by (apply N.mod_lt; lia). lia. }
    rewrite (N.div_mod' n base), (N.div_mod' m base). now rewrite Hq, Hr.
Qed.

Lemma app_inj_length {A : Type} (a b x y : list A) :
  List.length a = List.length b -> a ++ x = b ++ y -> a = b /\ x = y.
Proof.
  revert b. induction a as [|c a IH]; intros [|d b] Hlen H;
    try discriminate Hlen.
  - now split.
  - cbn in H. injection H as -> H. injection Hlen as Hlen.
    destruct (IH b Hlen H) as [-> ->]. now split.
Qed.

(** Distinct 128-bit integers print as distinct identifiers. *)
Lemma uuid_str_inj (u v : N) :
  u < 2 ^ 128 -> v < 2 ^ 128 -> uuid_str u = uuid_str v -> u = v.
Proof.
  intros Hu Hv H.
  apply (fixed_digits_inj 16 32); [lia | exact Hu | exact Hv |].
  unfold uuid_str in H. cbv zeta in H.
  pose proof (fixed_digits_length 16 32 u) as Lu.
  pose proof (fixed_digits_length 16 32 v) as Lv.
  remember (fixed_digits 16 32 u) as hu. remember (fixed_digits 16 32 v) as hv.
  clear Heqhu Heqhv.
  do 32 (destruct hu as [|? hu]; [discriminate Lu|]).
  destruct hu; [|discriminate Lu].
  do 32 (destruct hv as [|? hv]; [discriminate Lv|]).
  destruct hv; [|discriminate Lv].
  cbn in H. injection H. intros. subst. reflexivity.
Qed.

Lemma report_key_inj (a b : pystr) : report_key a = report_key b -> a = b.
Proof.
  unfold report_key. intros H.
  apply app_inv_head in H. now apply app_inv_tail in H.
Qed.

(** X14.  Two invocations whose [uuid4()] values differ get different task
    identifiers and write their reports under different keys: no report
    overwrites that of another task. *)
Theorem report_keys_do_not_collide (u v : N) :
  u < 2 ^ 128 -> v < 2 ^ 128 -> u <> v ->
  uuid_str u <> uuid_str v /\
  report_key (uuid_str u) <> report_key (uuid_str v).
Proof.
  intros Hu Hv Hne. split.
  - intros H. apply Hne. now apply uuid_str_inj.
  - intros H. apply Hne. apply uuid_str_inj; [exact Hu | exact Hv |].
    now apply report_key_inj.
Qed.

Lemma report_keys_do_not_collide_witness :
  uuid_str 0x123e4567e89b42d3a456426614174000 <>
  uuid_str 0x123e4567e89b42d3a456426614174001 /\
  report_key (uuid_str 0x123e4567e89b42d3a456426614174000) <>
  report_key (uuid_str 0x123e4567e89b42d3a456426614174001).
Proof.
  apply report_keys_do_not_collide; [reflexivity | reflexivity | discriminate].
Defined.

Lemma decimal_field_inj (width : nat) (bound n m : N) :
  bound <= 10 ^ N.of_nat width -> n < bound -> m < bound ->
  fixed_digits 10 width n = fixed_digits 10 width m -> n = m.
Proof.
  intros Hb Hn Hm. apply fixed_digits_inj; lia.
Qed.

Ltac peel_field H Hfield :=
  apply app_inj_length in H as [Hfield H];
  [ cbn [app] in H; apply (f_equal (@tl N)) in H; cbn [tl] in H
  | now rewrite !fixed_digits_length ].

(** X15.  The completion time written to the registry determines the
    clock reading it was printed from, down to the microsecond: distinct
    [datetime] values have distinct [isoformat()] texts. *)
Theorem isoformat_inj (t1 t2 : datetime) :
  valid_datetime t1 -> valid_datetime t2 ->
  isoformat t1 = isoformat t2 -> t1 = t2.
Proof.
  intros (Hy1 & Hm1 & Hd1 & Hh1 & Hmi1 & Hs1 & Hu1)
         (Hy2 & Hm2 & Hd2 & Hh2 & Hmi2 & Hs2 & Hu2) H.
  unfold isoformat in H.
  change (py "-") with [45] in H. change (py "T") with [84] in H.
  change (py ":") with [58] in H. change (py ".") with [46] in H.
  peel_field H Hyear. peel_field H Hmonth. peel_field H Hday.
  peel_field H Hhour. peel_field H Hminute.
  apply app_inj_length in H as [Hsecond H];
    [|now rewrite !fixed_digits_length].
  apply (decimal_field_inj 4 10000) in Hyear; [|cbn; lia|lia|lia].
  apply (decimal_field_inj 2 100) in Hmonth; [|cbn; lia|lia|lia].
  apply (decimal_field_inj 2 100) in Hday; [|cbn; lia|lia|lia].
  apply (decimal_field_inj 2 100) in Hhour; [|cbn; lia|lia|lia].
  apply (decimal_field_inj 2 100) in Hminute; [|cbn; lia|lia|lia].
  apply (decimal_field_inj 2 100) in Hsecond; [|cbn; lia|lia|lia].
  assert (Hmicro : microsecond t1 = microsecond t2).
  { destruct (N.eqb_spec (microsecond t1) 0) as [E1|E1],
             (N.eqb_spec (microsecond t2) 0) as [E2|E2];
      try discriminate H.
    - congruence.
    - cbn [app] in H. apply (f_equal (@tl N)) in H. cbn [tl] in H.
      apply (decimal_field_inj 6 1000000) in H; [exact H|cbn; lia|lia|lia]. }
  destruct t1, t2; cbn in *; subst; reflexivity.
Qed.

Lemma isoformat_inj_witness :
  noon = {| year := 2024; month := 5; day := 17;
            hour := 12; minute := 0; second := 9; microsecond := 250 |}.
Proof.
  apply isoformat_inj.
  - unfold valid_datetime; cbn; lia.
  - unfold valid_datetime; cbn; lia.
  - reflexivity.
Defined.

(* ================================================================== *)
(** ** The stored body and the report *)

Lemma utf8_encode_char_length (c : N) :
  match utf8_encode_char c with
  | Some bytes => (1 <= List.length bytes <= 4)%nat
  | None => True
  end.
Proof.
  unfold utf8_encode_char.
  destruct (c <? 0x80); [cbn; lia|].
  destruct (c <? 0x800); [cbn; lia|].
  destruct (c <? 0x10000).
  { destruct ((0xD800 <=? c) && (c <=? 0xDFFF)); [exact I | cbn; lia]. }
  destruct (c <? 0x110000); [cbn; lia | exact I].
Qed.

Lemma utf8_encode_length (s : pystr) (bytes : pybytes) :
  utf8_encode s = Some bytes ->
  (List.length s <= List.length bytes <= 4 * List.length s)%nat.
Proof.
  revert bytes. induction s as [|c s IH]; cbn [utf8_encode]; intros bytes.
  - intros [= <-]. cbn. lia.
  - pose proof (utf8_encode_char_length c) as Hc.
    destruct (utf8_encode_char c) as [b|]; [|discriminate].
    destruct (utf8_encode s) as [bs|]; [|discriminate].
    intros [= <-]. specialize (IH bs eq_refl).
    rewrite length_app. cbn [List.length]. lia.
Qed.

(** X16.  What [put_object] receives as the body of a report of [n] code
    points is a sequence of octets, between [n] and [4 n] of them; for a
    report in ASCII it is the report itself, one octet per character. *)
Theorem report_body_size (s : pystr) (bytes : pybytes) :
  utf8_encode s = Some bytes ->
  Forall (fun b => b < 256) bytes /\
  (List.length s <= List.length bytes <= 4 * List.length s)%nat /\
  (Forall (fun c => c < 0x80) s -> bytes = s).
Proof.
  intros H. split; [now apply utf8_encode_octets with s|].
  split; [now apply utf8_encode_length|].
  intros Hascii. rewrite (utf8_encode_ascii s Hascii) in H. congruence.
Qed.

Lemma report_body_size_witness :
  Forall (fun b => b < 256) [82; 195; 169; 226; 130; 172] /\
  (List.length [82; 233; 0x20AC] <= List.length [82; 195; 169; 226; 130; 172]
   <= 4 * List.length [82; 233; 0x20AC])%nat /\
  (Forall (fun c => c < 0x80) [82; 233; 0x20AC] ->
   [82; 195; 169; 226; 130; 172] = [82; 233; 0x20AC]).
Proof.
  apply (report_body_size [82; 233; 0x20AC] [82; 195; 169; 226; 130; 172]).
  reflexivity.
Defined.

Lemma below_check (P : N -> bool) (n : nat) :
  forallb P (map N.of_nat (seq 0 n)) = true ->
  forall x, x < N.of_nat n -> P x = true.
Proof.
  intros H x Hx. rewrite forallb_forall in H. apply H.
  apply in_map_iff. exists (N.to_nat x). split; [apply N2Nat.id|].
  apply in_seq. lia.
Qed.

(** The marker bits of a byte and its payload do not overlap. *)
Lemma lor_continuation (x : N) : x < 64 -> N.lor 0x80 x = 128 + x.
Proof.
  intros Hx. apply N.eqb_eq.
  apply (below_check (fun x => N.lor 0x80 x =? 128 + x) 64);
    [vm_compute; reflexivity | exact Hx].
Qed.

Lemma lor_leading (x : N) :
  x < 32 ->
  N.lor 0xC0 x = 192 + x /\
  (x < 16 -> N.lor 0xE0 x = 224 + x) /\
  (x < 8 -> N.lor 0xF0 x = 240 + x).
Proof.
  intros Hx.
  pose proof (below_check
                (fun x => (N.lor 0xC0 x =? 192 + x) &&
                          ((16 <=? x) || (N.lor 0xE0 x =? 224 + x)) &&
                          ((8 <=? x) || (N.lor 0xF0 x =? 240 + x)))
                32 eq_refl x Hx) as H.
  cbv beta in H.
  apply andb_true_iff in H as [H H3]. apply andb_true_iff in H as [H1 H2].
  apply N.eqb_eq in H1. split; [exact H1|]. split; intros Hb.
  - apply orb_true_iff in H2 as [H2|H2]; [apply N.leb_le in H2; lia|].
    now apply N.eqb_eq.
  - apply orb_true_iff in H3 as [H3|H3]; [apply N.leb_le in H3; lia|].
    now apply N.eqb_eq.
Qed.

Lemma low_six_bits (x : N) : N.land x 0x3F = x mod 64.
Proof. change 0x3F with (N.ones 6). now rewrite N.land_ones. Qed.

Lemma drop_six_bits (x : N) : N.shiftr x 6 = x / 64.
Proof. now rewrite N.shiftr_div_pow2. Qed.

Lemma drop_twelve_bits (x : N) : N.shiftr x 12 = x / 64 / 64.
Proof. rewrite N.shiftr_div_pow2, N.Div0.div_div. reflexivity. Qed.

Lemma drop_eighteen_bits (x : N) : N.shiftr x 18 = x / 64 / 64 / 64.
Proof. rewrite N.shiftr_div_pow2, !N.Div0.div_div. reflexivity. Qed.

Lemma split_six_bits (x : N) : x = 64 * (x / 64) + x mod 64 /\ x mod 64 < 64.
Proof.
  split; [apply N.div_mod' | apply N.mod_lt; discriminate].
Qed.

Lemma div64_below (x bound : N) : x < 64 * bound -> x / 64 < bound.
Proof. intros H. now apply N.Div0.div_lt_upper_bound. Qed.

(** The encoder in arithmetic: marker plus payload. *)
Lemma utf8_encode_char_arith (c : N) :
  utf8_encode_char c =
  if c <? 0x80 then Some [c]
  else if c <? 0x800 then Some [192 + c / 64; 128 + c mod 64]
  else if c <? 0x10000 then
    if (0xD800 <=? c) && (c <=? 0xDFFF) then None
    else Some [224 + c / 64 / 64; 128 + (c / 64) mod 64; 128 + c mod 64]
  else if c <? 0x110000 then
    Some [240 + c / 64 / 64 / 64; 128 + (c / 64 / 64) mod 64;
          128 + (c / 64) mod 64; 128 + c mod 64]
  else None.
Proof.
  unfold utf8_encode_char.
  rewrite drop_six_bits, drop_twelve_bits, drop_eighteen_bits.
  rewrite !low_six_bits.
  rewrite !lor_continuation by (apply N.mod_lt; discriminate).
  destruct (N.ltb_spec c 0x80); [reflexivity|].
  destruct (N.ltb_spec c 0x800) as [H2|H2].
  { destruct (lor_leading (c / 64)) as (-> & _); [|reflexivity].
    apply div64_below. exact H2. }
  destruct (N.ltb_spec c 0x10000) as [H3|H3].
  { destruct ((0xD800 <=? c) && (c <=? 0xDFFF)); [reflexivity|].
    assert (Hq : c / 64 / 64 < 16)
      by (apply div64_below, div64_below; exact H3).
    destruct (lor_leading (c / 64 / 64)) as (_ & H16 & _); [lia|].
    rewrite (H16 Hq). reflexivity. }
  destruct (N.ltb_spec c 0x110000) as [H4|H4]; [|reflexivity].
  assert (Hq : c / 64 / 64 / 64 < 8).
  { apply div64_below, div64_below, div64_below.
    change (64 * (64 * (64 * 8))) with 0x200000. lia. }
  destruct (lor_leading (c / 64 / 64 / 64)) as (_ & _ & H8); [lia|].
  rewrite (H8 Hq). reflexivity.
Qed.

(** The four shapes of an encoded code point, payloads made explicit. *)
Lemma utf8_encode_char_shape (c : N) (bytes : pybytes) :
  utf8_encode_char c = Some bytes ->
  (c < 128 /\ bytes = [c]) \/
  (exists q r0,
      c = 64 * q + r0 /\ r0 < 64 /\ q < 32 /\
      bytes = [192 + q; 128 + r0]) \/
  (exists q r1 r0,
      c = 4096 * q + 64 * r1 + r0 /\ r1 < 64 /\ r0 < 64 /\ q < 16 /\
      bytes = [224 + q; 128 + r1; 128 + r0]) \/
  (exists q r2 r1 r0,
      c = 262144 * q + 4096 * r2 + 64 * r1 + r0 /\
      r2 < 64 /\ r1 < 64 /\ r0 < 64 /\ q < 8 /\
      bytes = [240 + q; 128 + r2; 128 + r1; 128 + r0]).
Proof.
  rewrite utf8_encode_char_arith.
  destruct (split_six_bits c) as [E0 B0].
  destruct (split_six_bits (c / 64)) as [E1 B1].
  destruct (split_six_bits (c / 64 / 64)) as [E2 B2].
  destruct (N.ltb_spec c 0x80) as [H1|H1].
  { intros [= <-]. left. split; [lia | reflexivity]. }
  destruct (N.ltb_spec c 0x800) as [H2|H2].
  { intros [= <-]. right. left. exists (c / 64), (c mod 64).
    split; [exact E0|]. split; [exact B0|]. split; [|reflexivity].
    apply div64_below. exact H2. }
  destruct (N.ltb_spec c 0x10000) as [H3|H3].
  { destruct ((0xD800 <=? c) && (c <=? 0xDFFF)); [discriminate|].
    intros [= <-]. right. right. left.
    exists (c / 64 / 64), ((c / 64) mod 64), (c mod 64).
    assert (Hq : c / 64 / 64 < 16)
      by (apply div64_below, div64_below; exact H3).
    split; [|repeat split; assumption].
    remember (c mod 64) as r0. remember ((c / 64) mod 64) as r1.
    remember (c / 64 / 64) as q2. remember (c / 64) as q1. lia. }
  destruct (N.ltb_spec c 0x110000) as [H4|H4]; [|discriminate].
  intros [= <-]. right. right. right.
  exists (c / 64 / 64 / 64), ((c / 64 / 64) mod 64), ((c / 64) mod 64),
    (c mod 64).
  assert (Hq : c / 64 / 64 / 64 < 8).
  { apply div64_below, div64_below, div64_below.
    change (64 * (64 * (64 * 8))) with 0x200000. lia. }
  split; [|repeat split; assumption].
  remember (c mod 64) as r0. remember ((c / 64) mod 64) as r1.
  remember ((c / 64 / 64) mod 64) as r2.
  remember (c / 64 / 64 / 64) as q3.
  remember (c / 64 / 64) as q2. remember (c / 64) as q1. lia.
Qed.

(** The first octet tells how many octets a code point takes, and the
    octets give the code point back. *)
Lemma utf8_encode_char_inj (c1 c2 : N) (b1 b2 x y : pybytes) :
  utf8_encode_char c1 = Some b1 -> utf8_encode_char c2 = Some b2 ->
  b1 ++ x = b2 ++ y -> c1 = c2 /\ x = y.
Proof.
  intros H1 H2 H.
  apply utf8_encode_char_shape in H1, H2.
  destruct H1 as [(L1 & ->)
                 | [(q & r0 & E1 & ? & ? & ->)
                   | [(q & r1 & r0 & E1 & ? & ? & ? & ->)
                     | (q & r2 & r1 & r0 & E1 & ? & ? & ? & ? & ->)]]];
    destruct H2 as [(L2 & ->)
                   | [(q' & r0' & E2 & ? & ? & ->)
                     | [(q' & r1' & r0' & E2 & ? & ? & ? & ->)
                       | (q' & r2' & r1' & r0' & E2 & ? & ? & ? & ? & ->)]]];
    cbn [app] in H;
    repeat match type of H with
           | ?a :: _ = ?b :: _ =>
               let Hd := fresh "Hd" in
               assert (Hd : a = b) by congruence;
               apply (f_equal (@tl N)) in H; cbn [tl] in H
           end;
    first [ split; [lia | exact H] | exfalso; lia ].
Qed.

(** X17.  The encoding of the report loses nothing: two reports that give
    the same stored body are the same report. *)
Theorem report_body_determines_report (s1 s2 : pystr) (bytes : pybytes) :
  utf8_encode s1 = Some bytes -> utf8_encode s2 = Some bytes -> s1 = s2.
Proof.
  revert s2 bytes. induction s1 as [|c1 s1 IH]; intros [|c2 s2] bytes;
    cbn [utf8_encode].
  - reflexivity.
  - intros [= <-].
    pose proof (utf8_encode_char_length c2) as Hlen.
    destruct (utf8_encode_char c2) as [b|]; [|discriminate].
    destruct (utf8_encode s2); [|discriminate].
    intros [= H]. destruct b; [cbn in Hlen; lia | discriminate H].
  - pose proof (utf8_encode_char_length c1) as Hlen.
    destruct (utf8_encode_char c1) as [b|]; [|discriminate].
    destruct (utf8_encode s1); [|discriminate].
    intros [= <-] [= H]. destruct b; [cbn in Hlen; lia | discriminate H].
  - destruct (utf8_encode_char c1) as [b1|] eqn:H1; [|discriminate].
    destruct (utf8_encode s1) as [bs1|] eqn:Hs1; [|discriminate].
    destruct (utf8_encode_char c2) as [b2|] eqn:H2; [|discriminate].
    destruct (utf8_encode s2) as [bs2|] eqn:Hs2; [|discriminate].
    intros [= <-] [= H].
    destruct (utf8_encode_char_inj c1 c2 b1 b2 bs1 bs2 H1 H2 (eq_sym H))
      as [-> ->].
    f_equal. now apply (IH s2 bs2).
Qed.

Lemma report_body_determines_report_witness :
  [82; 233; 0x20AC; 0x1F600] = [82; 233; 0x20AC; 0x1F600].
Proof.
  apply (report_body_determines_report
           [82; 233; 0x20AC; 0x1F600] [82; 233; 0x20AC; 0x1F600]
           [82; 195; 169; 226; 130; 172; 240; 159; 152; 128]);
    reflexivity.
Defined.

(* ================================================================== *)
(** ** The response body on the wire *)

Lemma json_value_printable (v : option pystr) : Forall printable (json_value v).
Proof.
  destruct v as [s|]; cbn [json_value].
  - apply json_string_printable.
  - apply printableb_sound. reflexivity.
Qed.

Lemma json_members_printable (d : list (pystr * option pystr)) :
  Forall printable (json_members d).
Proof.
  induction d as [|[k v] d IH]; [constructor|].
  cbn [json_members]. destruct d as [|kv d].
  - apply Forall_app. split; [apply json_string_printable|].
    apply Forall_app. split; [apply printableb_sound; reflexivity|].
    apply json_value_printable.
  - apply Forall_app. split; [apply json_string_printable|].
    apply Forall_app. split; [apply printableb_sound; reflexivity|].
    apply Forall_app. split; [apply json_value_printable|].
    apply Forall_app. split; [apply printableb_sound; reflexivity|].
    exact IH.
Qed.

Lemma json_dumps_printable (d : list (pystr * option pystr)) :
  Forall printable (json_dumps d).
Proof.
  unfold json_dumps.
  apply Forall_app. split; [apply printableb_sound; reflexivity|].
  apply Forall_app. split; [apply json_members_printable|].
  apply printableb_sound. reflexivity.
Qed.

(** X18.  The body of every response is printable ASCII, whatever
    characters the bucket name holds: [json.dumps] escapes everything
    else. *)
Theorem response_body_is_ascii
        (g : Globals) (w : World) (event : pyval) (r : response) :
  fst (run g w event) = Ok r -> Forall printable (body r).
Proof.
  intros Hr.
  destruct (run_outcomes g w event)
    as [(_ & c & Hrun)
       | [(_ & r' & Hr' & _ & Hrun)
         | [(_ & e & _ & _ & Hrun)
           | [(_ & topic & _ & _ & _ & Hrun)
             | [(_ & topic & report & bytes & _ & _ & _ & _ & _ & _ & Hrun)
               | [(_ & topic & e & tr1 & _ & _ & _ & _ & _ & Hrun)
                 | (_ & topic & e & tr1 & _ & _ & _ & _ & Hrun)]]]]]];
    rewrite Hrun in Hr; cbn [fst] in Hr.
  - injection Hr as <-. apply json_dumps_printable.
  - injection Hr as <-. destruct Hr' as [-> | ->]; apply json_dumps_printable.
  - discriminate.
  - discriminate.
  - injection Hr as <-. apply json_dumps_printable.
  - discriminate.
  - destruct (put_failed w); [discriminate|]. injection Hr as <-.
    apply json_dumps_printable.
Qed.

Lemma response_body_is_ascii_witness :
  Forall printable
    (body (success_response
             {| S3_BUCKET_NAME := Some [233; 34; 0x1F600];
                DYNAMODB_TABLE_NAME := Some (py "research-tasks");
                GOOGLE_API_KEY := Some (py "g-key");
                SERPAPI_API_KEY := Some (py "s-key") |}
             (uuid_str (uuid4 calm_world)))).
Proof.
  apply (response_body_is_ascii
           {| S3_BUCKET_NAME := Some [233; 34; 0x1F600];
              DYNAMODB_TABLE_NAME := Some (py "research-tasks");
              GOOGLE_API_KEY := Some (py "g-key");
              SERPAPI_API_KEY := Some (py "s-key") |}
           calm_world coral_event).
  reflexivity.
Defined.

(* ================================================================== *)
(** ** The task identifier in the success response *)

Lemma unescapedb_sound (l : pystr) :
  forallb unescapedb l = true -> Forall unescaped l.
Proof.
  induction l as [|c l IH]; cbn [forallb]; intros H; [constructor|].
  apply andb_true_iff in H as [Hc Hl]. constructor; [|now apply IH].
  unfold unescapedb in Hc.
  apply andb_true_iff in Hc as [Hc Hb]. apply andb_true_iff in Hc as [Hp Hq].
  unfold printableb in Hp. apply andb_true_iff in Hp as [Hlo Hhi].
  apply N.leb_le in Hlo, Hhi.
  apply negb_true_iff, N.eqb_neq in Hq, Hb.
  unfold unescaped, printable. lia.
Qed.

Lemma json_string_unescaped (s : pystr) :
  Forall unescaped s -> json_string s = quoted s.
Proof.
  intros H. unfold json_string, quoted. do 2 f_equal.
  induction H as [|c s (Hp & Hq & Hb) _ IH]; cbn [flat_map]; [reflexivity|].
  now rewrite IH, json_escape_char_plain.
Qed.

Lemma report_key_unescaped (u : N) :
  Forall unescaped (report_key (uuid_str u)).
Proof.
  unfold report_key.
  apply Forall_app. split; [apply unescapedb_sound; reflexivity|].
  apply Forall_app. split; [|apply unescapedb_sound; reflexivity].
  eapply Forall_impl; [|apply uuid_str_charset].
  intros c Hc. unfold hex_or_hyphen in Hc. unfold unescaped, printable. lia.
Qed.

(** X19.  A task identifier is 36 characters long, made of lowercase hex
    digits with hyphens at positions 8, 13, 18 and 23; [json.dumps] therefore
    leaves it and the report key untouched, and the body of the 200 response
    holds both texts exactly as they were used for the object and the
    record. *)
Theorem task_id_format_and_echo (g : Globals) (u : N) :
  List.length (uuid_str u) = 36%nat /\
  Forall hex_or_hyphen (uuid_str u) /\
  map (nth_error (uuid_str u)) [8; 13; 18; 23]%nat
  = [Some 45; Some 45; Some 45; Some 45] /\
  contains (body (success_response g (uuid_str u))) (uuid_str u) = true /\
  contains (body (success_response g (uuid_str u)))
           (quoted (report_key (uuid_str u))) = true.
Proof.
  split; [apply uuid_str_length|]. split; [apply uuid_str_charset|]. split.
  - unfold uuid_str. cbv zeta.
    pose proof (fixed_digits_length 16 32 u) as Lu.
    remember (fixed_digits 16 32 u) as h. clear Heqh.
    do 32 (destruct h as [|? h]; [discriminate Lu|]).
    destruct h; [|discriminate Lu]. reflexivity.
  - split.
    + unfold success_response, body, json_dumps.
      cbn [json_members json_value].
      rewrite (json_string_plain (uuid_str u)) by apply uuid_str_charset.
      unfold quoted. repeat rewrite <- app_assoc.
      repeat first [apply contains_here | apply contains_app_r].
    + unfold success_response, body, json_dumps.
      cbn [json_members json_value].
      pose proof (json_string_unescaped _ (report_key_unescaped u)) as Hkey.
      unfold report_key in Hkey. rewrite Hkey.
      unfold report_key.
      set (key := quoted (py "reports/" ++ uuid_str u ++ py ".txt")).
      repeat rewrite <- app_assoc.
      repeat first [apply contains_here | apply contains_app_r].
Qed.

(* ================================================================== *)
(** ** Module globals and the environment (lines 14-17, 50, 52) *)

(** Request validation does not look at the environment. *)
Lemma parse_request_in_environment
      (sdk : Sdk) (env : environ) (w : World) (event : pyval) (tr : trace) :
  parse_request (in_environment sdk env w) event tr = parse_request w event tr.
Proof. reflexivity. Qed.

Lemma interrupted_trace_nonempty (tr : trace) :
  interrupted (steps tr) -> tr <> [].
Proof.
  intros H ->. apply interrupted_cases in H. cbn in H.
  repeat (destruct H as [H|H]; [discriminate H|]). discriminate H.
Qed.

(** An invocation that makes no outside call does not get as far as the
    constructors, and is the same in every environment. *)
Lemma run_without_calls
      (g : Globals) (sdk : Sdk) (env1 env2 : environ) (w : World)
      (event : pyval) :
  snd (run g (in_environment sdk env1 w) event) = [] ->
  run g (in_environment sdk env2 w) event =
  run g (in_environment sdk env1 w) event.
Proof.
  intros Hempty.
  destruct (config_present g) eqn:Hc.
  2:{ unfold config_present in Hc. unfold run, lambda_handler.
      destruct (py_not (GOOGLE_API_KEY g)); [reflexivity|].
      destruct (py_not (SERPAPI_API_KEY g)); [reflexivity|].
      destruct (py_not (S3_BUCKET_NAME g)); [reflexivity|].
      destruct (py_not (DYNAMODB_TABLE_NAME g)); [reflexivity|].
      discriminate. }
  destruct (fst (parse_request w event [])) as [[r|topic]|e] eqn:Hp.
  - rewrite (run_request_returns g (in_environment sdk env2 w) event r Hc)
      by (now rewrite parse_request_in_environment).
    rewrite (run_request_returns g (in_environment sdk env1 w) event r Hc)
      by (now rewrite parse_request_in_environment).
    reflexivity.
  - rewrite (run_valid_request g (in_environment sdk env2 w) event topic Hc)
      by (now rewrite parse_request_in_environment).
    rewrite (run_valid_request g (in_environment sdk env1 w) event topic Hc)
      in Hempty |- * by (now rewrite parse_request_in_environment).
    destruct (loggable_value topic); [|reflexivity].
    exfalso.
    destruct (research_and_store_cases g (in_environment sdk env1 w) topic [])
      as [(report & bytes & Ha & He & Hs & Hr)
         | (e & tr1 & Hrs & Hint & _ & _)].
    + rewrite (research_and_store_completes g (in_environment sdk env1 w)
                 topic [] report bytes) in Hempty by assumption.
      discriminate Hempty.
    + rewrite Hrs, record_failure_spec in Hempty. cbn [app] in Hempty.
      apply interrupted_trace_nonempty in Hint.
      destruct (loggable (format_exc e)); cbn [snd] in Hempty.
      * destruct tr1; [now apply Hint | discriminate Hempty].
      * now apply Hint.
  - rewrite (run_request_raises g (in_environment sdk env2 w) event e Hc)
      by (now rewrite parse_request_in_environment).
    rewrite (run_request_raises g (in_environment sdk env1 w) event e Hc)
      by (now rewrite parse_request_in_environment).
    reflexivity.
Qed.

(** C7 (amended).  The four configuration values are read once, when the
    module is imported: the globals of a process are those of its load-time
    environment whatever [os.environ] becomes later, so the configuration
    check and the bucket and table names of every store call are those of the
    load-time snapshot.  The environment of the moment is only read by the
    outside calls (the constructors of lines 50 and 52 read their API keys
    from it): an invocation that makes no outside call, or whose outside
    calls do the same in both environments, is the same as if the environment
    had not changed. *)
Theorem configuration_is_load_time_snapshot
        (at_load now : environ) (sdk : Sdk) (w : World) (event : pyval) :
  module_globals (setenv now (cold_start at_load)) = import_module at_load /\
  (config_present (import_module at_load) = false ->
   exists c,
     invoke (setenv now (cold_start at_load)) sdk w event =
     (Ok (error_response 500 (category_message c)), [])) /\
  (forall bucket key bytes content_type ok,
      In (put_object bucket key bytes content_type, ok)
         (snd (invoke (setenv now (cold_start at_load)) sdk w event)) ->
      bucket = os_environ_get at_load (py "S3_BUCKET_NAME")) /\
  (forall table item ok,
      In (put_item table item, ok)
         (snd (invoke (setenv now (cold_start at_load)) sdk w event)) ->
      table = os_environ_get at_load (py "DYNAMODB_TABLE_NAME")) /\
  (snd (invoke (cold_start at_load) sdk w event) = [] \/
   sdk now = sdk at_load ->
   invoke (setenv now (cold_start at_load)) sdk w event =
   invoke (cold_start at_load) sdk w event).
Proof.
  unfold invoke, setenv, cold_start. cbn [module_globals os_environ].
  split; [reflexivity|]. split.
  { intros Hc. now apply run_config_absent. }
  split.
  { intros bucket key bytes content_type ok Hin.
    destruct (calls_are_expected _ _ _ _ Hin) as (topic & _ & _ & _ & Hexp).
    cbn in Hexp. now destruct Hexp as (-> & _). }
  split.
  { intros table item ok Hin.
    destruct (calls_are_expected _ _ _ _ Hin) as (topic & _ & _ & _ & Hexp).
    cbn in Hexp. now destruct Hexp as (-> & _). }
  intros [Hempty | Hsame].
  - now apply run_without_calls.
  - unfold in_environment. now rewrite Hsame.
Qed.

Lemma configuration_is_load_time_snapshot_witness :
  invoke (setenv [] (cold_start full_environ)) key_reading_sdk calm_world
         (VDict []) =
  invoke (cold_start full_environ) key_reading_sdk calm_world (VDict []).
Proof.
  apply (configuration_is_load_time_snapshot full_environ []
           key_reading_sdk calm_world (VDict [])).
  left. reflexivity.
Defined.

(** C7 as stated fails: a process loaded with the four values set and
    whose environment is then emptied answers a request without topic with
    400, where a process that read the environment at invocation time would
    answer 500. *)
Lemma stale_configuration_after_environment_change :
  ~ environment_read_at_invocation full_environ [] key_reading_sdk calm_world
      (VDict []) /\
  invoke (setenv [] (cold_start full_environ)) key_reading_sdk calm_world
         (VDict []) = (Ok missing_topic_response, []) /\
  invoke (cold_start []) key_reading_sdk calm_world (VDict []) =
  (Ok (error_response 500 (category_message GoogleApiKey)), []).
Proof.
  split; [|split; reflexivity].
  unfold environment_read_at_invocation. intros H.
  apply (f_equal (fun out => match fst out with
                             | Ok r => statusCode r
                             | Raise _ => 0%Z
                             end)) in H.
  vm_compute in H. discriminate.
Qed.

(** What the constructors read is the environment of the moment: with an
    SDK whose constructors look for their key, and the keys removed after
    load, the gate still passes on the snapshot, the
    constructor of line 50 raises, and the request that was served before is
    now recorded as FAILED. *)
Lemma api_keys_are_read_at_invocation :
  fst (invoke (cold_start full_environ) key_reading_sdk calm_world coral_event)
  = Ok (success_response full_config (uuid_str (uuid4 calm_world))) /\
  fst (invoke (setenv [] (cold_start full_environ)) key_reading_sdk calm_world
              coral_event)
  = Ok internal_error_response /\
  map (fun x => (step_of (fst x), snd x))
      (snd (invoke (setenv [] (cold_start full_environ)) key_reading_sdk
                   calm_world coral_event))
  = [(ModelConstruction, false); (RegistryFailed, true)].
Proof.
  repeat split; vm_compute; reflexivity.
Qed.

(* ================================================================== *)
(** ** Log lines that cannot be written *)

(** X20.  With the configuration present, a request whose topic is a
    string holding a surrogate passes request validation, and the [print] of
    line 47, which is outside both [try] blocks, raises [UnicodeEncodeError]
    out of the handler: no response is given, no outside call is made and
    nothing is recorded. *)
Theorem unloggable_topic_raises
        (g : Globals) (w : World) (event topic : pyval) :
  config_present g = true ->
  valid_request w event topic ->
  loggable_value topic = false ->
  run g w event = (Raise (codec_error w StartLog), []) /\
  exc_type (codec_error w StartLog) = UnicodeEncodeError.
Proof.
  intros Hc Hreq Hlog. split; [|reflexivity].
  pose proof (parse_request_valid w event topic [] Hreq) as Hp.
  rewrite (run_valid_request g w event topic Hc) by (now rewrite Hp).
  now rewrite Hlog.
Qed.

Lemma unloggable_topic_raises_witness :
  run full_config (world_decoding decode_surrogate calm_world)
      (VDict [(py "body", VStr surrogate_body)])
  = (Raise (codec_error (world_decoding decode_surrogate calm_world) StartLog),
     []).
Proof.
  apply (unloggable_topic_raises full_config
           (world_decoding decode_surrogate calm_world)
           (VDict [(py "body", VStr surrogate_body)]) (VStr [0xD800]));
    try reflexivity.
  exists [(py "body", VStr surrogate_body)], surrogate_body,
    [(py "topic", VStr [0xD800])].
  repeat split; reflexivity.
Defined.

(** X21.  When the second [try] block raised [e] and the traceback of [e]
    cannot be written to the log (its text holds a surrogate), the [print]s
    of lines 113-115 raise [UnicodeEncodeError] out of the [except] clause
    before the FAILED [put_item] is attempted: the handler raises, the calls
    made are those of the [try] block only, and no registry write
    returned. *)
Theorem unloggable_traceback_raises
        (g : Globals) (w : World) (event topic : pyval) (e : raised) :
  config_present g = true ->
  valid_request w event topic ->
  loggable_value topic = true ->
  task_raises g w topic e ->
  loggable (format_exc e) = false ->
  fst (run g w event) = Raise (codec_error w FailureLog) /\
  exc_type (codec_error w FailureLog) = UnicodeEncodeError /\
  snd (run g w event) =
  snd (research_and_store g w topic (uuid_str (uuid4 w)) []) /\
  writes is_put_item (snd (run g w event)) = [].
Proof.
  intros Hc Hreq Hlog Hraise Htrace.
  pose proof (parse_request_valid w event topic [] Hreq) as Hp.
  destruct (run_task_raised g w event topic e Hc)
    as (tr1 & Hrs & _ & Hw & Hrun);
    [now rewrite Hp | exact Hraise |].
  rewrite Hlog, Htrace in Hrun. rewrite Hrun, Hrs. cbn [fst snd].
  repeat split; auto.
Qed.

Lemma unloggable_traceback_raises_witness :
  fst (run full_config (world_with (Raise unprintable_error) None None None)
           coral_event)
  = Raise (codec_error (world_with (Raise unprintable_error) None None None)
                       FailureLog).
Proof.
  apply (unloggable_traceback_raises full_config
           (world_with (Raise unprintable_error) None None None)
           coral_event (VStr (py "coral bleaching")) unprintable_error);
    try reflexivity.
  exists [(py "body", VStr coral_body)], coral_body,
    [(py "topic", VStr (py "coral bleaching"))].
  repeat split; reflexivity.
Defined.
